(** * PaperScout: the acquisition and normalisation core

    A shallow embedding of [config.py], [parsing.py], [openreview_client.py],
    [web_scraper.py] and the filter loop of [app.py], and the properties of
    the venue resolver, the score parser, the review aggregator, the two
    fetch paths and the filters.

    Conventions of the embedding.
    - A Python [str] is a [string] whose characters are code points below 256.
    - A Python [float] is the rational number it denotes ([Q]); rounding to
      binary64 is not part of the model.
    - A value of type [Any] is a [pyval]; an operation that Python rejects on
      such a value raises, as it does in Python.
    - A function that can raise returns a [result]; a function that talks to
      the network runs in the monad [M] over an abstract world. *)

From Stdlib Require Import ZArith QArith Lqa List Permutation Sorted String Ascii.
From Stdlib Require Import Bool Lia DecimalString.
Import ListNotations.
Open Scope Z_scope.
Open Scope string_scope.

(** ** Python values and built-ins *)

Module Py.

(** Values of the JSON-shaped data the program handles. *)
#[warnings="-register-all"]
Inductive pyval : Type :=
| PNone
| PBool (b : bool)
| PInt (n : Z)
| PFloat (x : Q)
| PStr (s : string)
| PList (l : list pyval)
| PDict (d : list (string * pyval)).

(** A [dict] with string keys, in insertion order. *)
Definition dict : Type := list (string * pyval).

(** The exceptions the modelled code can meet; all derive from [Exception]. *)
Inductive exn : Type :=
| AttributeError (msg : string)
| TypeError (msg : string)
| ValueError (msg : string)
| ZeroDivisionError (msg : string)
| OpenReviewClientError (msg : string)
| OtherException (kind msg : string).

(** [str(e)] *)
Definition exn_str (e : exn) : string :=
  match e with
  | AttributeError m | TypeError m | ValueError m | ZeroDivisionError m
  | OpenReviewClientError m | OtherException _ m => m
  end.

Definition is_AttributeError (e : exn) : bool :=
  match e with AttributeError _ => true | _ => false end.

Inductive result (A : Type) : Type :=
| Ret (a : A)
| Raise (e : exn).
Arguments Ret {A} a.
Arguments Raise {A} e.

Definition rbind {A B} (r : result A) (k : A -> result B) : result B :=
  match r with Ret a => k a | Raise e => Raise e end.

Fixpoint rmap_list {A B} (f : A -> result B) (l : list A) : result (list B) :=
  match l with
  | [] => Ret []
  | a :: l' => rbind (f a) (fun b => rbind (rmap_list f l') (fun bs => Ret (b :: bs)))
  end.

(** *** Characters and strings *)

Definition chr (n : nat) : ascii := ascii_of_nat n.
Definition ord (c : ascii) : nat := nat_of_ascii c.

Definition is_digit (c : ascii) : bool :=
  ((48 <=? ord c) && (ord c <=? 57))%nat.

(** [str.isspace] on one character (code points below 256). *)
Definition is_space (c : ascii) : bool :=
  let n := ord c in
  (((9 <=? n) && (n <=? 13)) || ((28 <=? n) && (n <=? 32))
   || (n =? 133) || (n =? 160))%nat.

Definition upper_char (c : ascii) : ascii :=
  let n := ord c in
  if ((97 <=? n) && (n <=? 122))%nat then chr (n - 32) else c.

Definition lower_char (c : ascii) : ascii :=
  let n := ord c in
  if ((65 <=? n) && (n <=? 90))%nat then chr (n + 32) else c.

Fixpoint smap (f : ascii -> ascii) (s : string) : string :=
  match s with
  | EmptyString => EmptyString
  | String c s' => String (f c) (smap f s')
  end.

(** [s.upper()] and [s.lower()]; letters outside ASCII are left as they are. *)
Definition upper (s : string) : string := smap upper_char s.
Definition lower (s : string) : string := smap lower_char s.

Fixpoint lstrip (s : string) : string :=
  match s with
  | EmptyString => EmptyString
  | String c s' => if is_space c then lstrip s' else s
  end.

Fixpoint rstrip (s : string) : string :=
  match s with
  | EmptyString => EmptyString
  | String c s' =>
      match rstrip s' with
      | EmptyString => if is_space c then EmptyString else String c EmptyString
      | r => String c r
      end
  end.

(** [s.strip()] *)
Definition strip (s : string) : string := rstrip (lstrip s).

(** [needle in hay] on strings *)
Fixpoint contains (needle hay : string) : bool :=
  prefix needle hay
  || match hay with
     | EmptyString => false
     | String _ hay' => contains needle hay'
     end.

(** [s.startswith(p)] *)
Definition startswith (s p : string) : bool := prefix p s.

(** [s.split(sep)] for a one-character separator *)
Fixpoint split (sep : ascii) (s : string) : list string :=
  match s with
  | EmptyString => [EmptyString]
  | String c s' =>
      if Ascii.eqb c sep then EmptyString :: split sep s'
      else match split sep s' with
           | [] => [String c EmptyString]
           | w :: ws => String c w :: ws
           end
  end.

(** [str(n)] for an [int] *)
Definition str_of_int (n : Z) : string := NilEmpty.string_of_int (Z.to_int n).

Definition digit_value (c : ascii) : Z := Z.of_nat (ord c) - 48.

Fixpoint digits_value (acc : Z) (s : string) : Z :=
  match s with
  | EmptyString => acc
  | String c s' => digits_value (10 * acc + digit_value c) s'
  end.

Fixpoint all_digits (s : string) : bool :=
  match s with
  | EmptyString => true
  | String c s' => is_digit c && all_digits s'
  end.

(** The longest prefix of decimal digits, and what follows it. *)
Fixpoint span_digits (s : string) : string * string :=
  match s with
  | EmptyString => (EmptyString, EmptyString)
  | String c s' =>
      if is_digit c
      then let (ds, rest) := span_digits s' in (String c ds, rest)
      else (EmptyString, s)
  end.

(** *** Truth value, [or], containers *)

(** [bool(v)] *)
Definition truthy (v : pyval) : bool :=
  match v with
  | PNone => false
  | PBool b => b
  | PInt n => negb (Z.eqb n 0)
  | PFloat x => negb (Qeq_bool x 0)
  | PStr s => negb (String.eqb s EmptyString)
  | PList l => match l with [] => false | _ => true end
  | PDict d => match d with [] => false | _ => true end
  end.

(** [a or b] *)
Definition py_or (a b : pyval) : pyval := if truthy a then a else b.

Fixpoint dict_get (d : dict) (k : string) : option pyval :=
  match d with
  | [] => None
  | (k', v) :: d' => if String.eqb k' k then Some v else dict_get d' k
  end.

(** [k in d] *)
Definition dict_has (d : dict) (k : string) : bool :=
  match dict_get d k with Some _ => true | None => false end.

(** [d.get(k)], which is [None] for a missing key *)
Definition get (d : dict) (k : string) : pyval :=
  match dict_get d k with Some v => v | None => PNone end.

(** [d.get(k, default)] *)
Definition get_default (d : dict) (k : string) (default : pyval) : pyval :=
  match dict_get d k with Some v => v | None => default end.

(** [d[k] = v]: an existing key keeps its position, a new one goes last. *)
Fixpoint dict_set (d : dict) (k : string) (v : pyval) : dict :=
  match d with
  | [] => [(k, v)]
  | (k', v') :: d' =>
      if String.eqb k' k then (k', v) :: d' else (k', v') :: dict_set d' k v
  end.

(** A dict display [{k1: v1, ..., **more}]. *)
Definition dict_of_items (items : list (string * pyval)) : dict :=
  fold_left (fun d kv => dict_set d (fst kv) (snd kv)) items [].

(** [list(d.keys())] *)
Definition keys (d : dict) : list string := map fst d.

(** [v.get(...)], [v.keys()]: only a dict has these methods. *)
Definition as_dict (v : pyval) : result dict :=
  match v with
  | PDict d => Ret d
  | _ => Raise (AttributeError "object has no attribute of a dict")
  end.

(** [v.split], [v.startswith], [v.strip]: only a str has these methods. *)
Definition as_str (v : pyval) : result string :=
  match v with
  | PStr s => Ret s
  | _ => Raise (AttributeError "object has no attribute of a str")
  end.

Fixpoint chars (s : string) : list pyval :=
  match s with
  | EmptyString => []
  | String c s' => PStr (String c EmptyString) :: chars s'
  end.

(** [for x in v]: the elements visited. *)
Definition iterate (v : pyval) : result (list pyval) :=
  match v with
  | PList l => Ret l
  | PDict d => Ret (map PStr (keys d))
  | PStr s => Ret (chars s)
  | _ => Raise (TypeError "object is not iterable")
  end.




(** What the interpreter supplies and the embedding leaves open: the text
    [str] gives for a float, a list or a dict. *)
Class Builtins : Type := { str_other : pyval -> string }.

(** [str(v)] *)
Definition py_str {py : Builtins} (v : pyval) : string :=
  match v with
  | PStr s => s
  | PNone => "None"
  | PBool true => "True"
  | PBool false => "False"
  | PInt n => str_of_int n
  | _ => str_other v
  end.

(** *** Text handling of the keyword and sorting code *)

(** [s.lower()] on every code point below 256: the capital letters of the
    range 192 to 222 have their small forms 32 places further. *)
Definition lower_char_latin1 (c : ascii) : ascii :=
  let n := ord c in
  if (((65 <=? n) && (n <=? 90))
      || ((192 <=? n) && (n <=? 222) && negb (n =? 215)))%nat
  then chr (n + 32) else c.

Definition str_lower (s : string) : string := smap lower_char_latin1 s.

(** [s.replace(old, new)] for one-character [old] and [new]. *)
Definition replace_char (old new : ascii) (s : string) : string :=
  smap (fun c => if Ascii.eqb c old then new else c) s.

(** [s.split()]: the maximal runs of characters that are not blanks. *)
Fixpoint split_blank (s : string) : list string :=
  match s with
  | EmptyString => []
  | String c s' =>
      if is_space c then split_blank s'
      else
        match s' with
        | EmptyString => [String c EmptyString]
        | String c' _ =>
            if is_space c' then String c EmptyString :: split_blank s'
            else match split_blank s' with
                 | w :: ws => String c w :: ws
                 | [] => [String c EmptyString]
                 end
        end
  end.

(** The number a [bool], an [int] or a [float] stands for. *)
Definition number_of (v : pyval) : option Q :=
  match v with
  | PBool b => Some (inject_Z (if b then 1 else 0))
  | PInt n => Some (inject_Z n)
  | PFloat x => Some x
  | _ => None
  end.

(** [a == b] *)
Fixpoint py_eq (a b : pyval) : bool :=
  match a, b with
  | PNone, PNone => true
  | PStr s, PStr t => String.eqb s t
  | PList l1, PList l2 =>
      (fix eq_list (l1 l2 : list pyval) : bool :=
         match l1, l2 with
         | [], [] => true
         | x :: xs, y :: ys => py_eq x y && eq_list xs ys
         | _, _ => false
         end) l1 l2
  | PDict d1, PDict d2 =>
      Nat.eqb (List.length d1) (List.length d2)
      && (fix eq_items (d : list (string * pyval)) : bool :=
            match d with
            | [] => true
            | (k, v) :: d' =>
                match dict_get d2 k with
                | Some v' => py_eq v v'
                | None => false
                end && eq_items d'
            end) d1
  | _, _ =>
      match number_of a, number_of b with
      | Some x, Some y => Qeq_bool x y
      | _, _ => false
      end
  end.

(** [a < b]: numbers with numbers, strings with strings by code point, lists
    with lists at the first place where they differ; anything else is a
    [TypeError]. *)
Fixpoint py_lt (a b : pyval) : result bool :=
  match a, b with
  | PStr s, PStr t => Ret (String.ltb s t)
  | PList l1, PList l2 =>
      (fix lt_list (l1 l2 : list pyval) : result bool :=
         match l1, l2 with
         | [], [] => Ret false
         | [], _ :: _ => Ret true
         | _ :: _, [] => Ret false
         | x :: xs, y :: ys => if py_eq x y then lt_list xs ys else py_lt x y
         end) l1 l2
  | _, _ =>
      match number_of a, number_of b with
      | Some x, Some y => Ret (negb (Qle_bool y x))
      | _, _ => Raise (TypeError "'<' not supported between these instances")
      end
  end.

End Py.
Export Py.

(** ** config.py *)

Module config.

Record VenueConfig : Type := {
  display_name : string;
  aliases : list string;
  patterns : list string;
  years_available : list Z;
  source : option string
}.

(** [list(range(lo, hi))] *)
Definition range (lo hi : Z) : list Z :=
  map (fun i => lo + Z.of_nat i) (seq 0 (Z.to_nat (hi - lo))).

Definition VENUE_MAPPINGS : list (string * VenueConfig) :=
  [ ("ICLR",
     {| display_name := "ICLR";
        aliases := ["iclr"];
        patterns := ["ICLR.cc/{year}/Conference"];
        years_available := range 2018 2027;
        source := None |});
    ("NeurIPS",
     {| display_name := "NeurIPS";
        aliases := ["neurips"; "nips"; "NIPS"];
        patterns := ["NeurIPS.cc/{year}/Conference";
                     "NIPS.cc/{year}/Conference"];
        years_available := range 2019 2027;
        source := None |});
    ("ICML",
     {| display_name := "ICML";
        aliases := ["icml"];
        patterns := ["ICML.cc/{year}/Conference"];
        years_available := range 2023 2027;
        source := None |});
    ("AAAI",
     {| display_name := "AAAI";
        aliases := ["aaai"];
        patterns := ["AAAI.org/{year}/Conference"];
        years_available := range 2021 2026;
        source := Some "web" |}) ].



Definition CACHE_TTL_HOURS : Z := 6.
Definition API_RETRY_MAX : nat := 3.
Definition API_RETRY_DELAY_BASE : Z := 2.

(** [p.format(year=year)] for a pattern whose only replacement field is
    [{year}]: every occurrence of the field is replaced, left to right;
    [skip] counts the characters of a field still to be dropped. *)
Fixpoint format_year_from (skip : nat) (p : string) (year : string) : string :=
  match p with
  | EmptyString => EmptyString
  | String c p' =>
      match skip with
      | S k => format_year_from k p' year
      | O =>
          if prefix "{year}" p
          then year ++ format_year_from 5 p' year
          else String c (format_year_from 0 p' year)
      end
  end.

Definition format_year (p : string) (year : string) : string :=
  format_year_from 0 p year.

(** [x in l] on strings *)
Definition str_in (x : string) (l : list string) : bool :=
  existsb (String.eqb x) l.

(** The test of the loop of [get_venue_id_candidates]. *)
Definition venue_matches (venue_name key : string) (cfg : VenueConfig) : bool :=
  let venue_upper := strip (upper venue_name) in
  String.eqb venue_upper (upper key)
  || str_in (lower venue_name) (map lower (aliases cfg)).

Fixpoint find_venue (venue_name : string)
    (mappings : list (string * VenueConfig)) : option VenueConfig :=
  match mappings with
  | [] => None
  | (key, cfg) :: rest =>
      if venue_matches venue_name key cfg then Some cfg
      else find_venue venue_name rest
  end.

Definition get_venue_id_candidates (venue_name : string) (year : Z) : list string :=
  match find_venue venue_name VENUE_MAPPINGS with
  | Some cfg => map (fun p => format_year p (str_of_int year)) (patterns cfg)
  | None => [venue_name]
  end.

Definition MIN_YEAR : Z := 2018.
Definition MAX_YEAR : Z := 2026.

Definition get_available_venues : list string := map fst VENUE_MAPPINGS.

(** The loop of [get_venue_years] has the test of [get_venue_id_candidates]. *)
Definition get_venue_years (venue_name : string) : list Z :=
  match find_venue venue_name VENUE_MAPPINGS with
  | Some cfg => years_available cfg
  | None => range MIN_YEAR (MAX_YEAR + 1)
  end.

End config.

(** ** parsing.py *)

Module parsing.

(** *** The search pattern [-?\d+\.?\d*] *)

(** [\d+\.?\d*] matched at the start of [s]: every part is greedy and nothing
    after it can fail, so there is no backtracking. *)
Definition match_unsigned (s : string) : option string :=
  match span_digits s with
  | (EmptyString, _) => None
  | (ds, String c rest) =>
      if Ascii.eqb c "." then Some (ds ++ String c (fst (span_digits rest)))
      else Some ds
  | (ds, EmptyString) => Some ds
  end.

(** The pattern matched at the start of [s].  After a minus sign that no digit
    follows, the matcher retries without the sign and fails on the sign. *)
Definition match_number (s : string) : option string :=
  match s with
  | String c s' =>
      if Ascii.eqb c "-"
      then match match_unsigned s' with
           | Some m => Some (String c m)
           | None => None
           end
      else match_unsigned s
  | EmptyString => None
  end.

(** [re.search(r'-?\d+\.?\d*', s)]: the match at the leftmost position that
    has one; [match.group()] is the matched text. *)
Fixpoint search_number (s : string) : option string :=
  match match_number s with
  | Some m => Some m
  | None =>
      match s with
      | EmptyString => None
      | String _ s' => search_number s'
      end
  end.

(** *** [float(s)] on decimal literals *)

(** The value of [digits . fraction]. *)
Definition decimal_value (neg : bool) (ds fs : string) : Q :=
  let n := digits_value 0 (ds ++ fs) in
  Qmake (if neg then - n else n) (Z.to_pos (10 ^ Z.of_nat (String.length fs))).

Definition unsigned_float (neg : bool) (s : string) : result Q :=
  match span_digits s with
  | (ds, EmptyString) =>
      if Nat.eqb (String.length ds) 0
      then Raise (ValueError "could not convert string to float")
      else Ret (decimal_value neg ds EmptyString)
  | (ds, String c rest) =>
      if Ascii.eqb c "." && all_digits rest
         && negb (Nat.eqb (String.length ds + String.length rest) 0)
      then Ret (decimal_value neg ds rest)
      else Raise (ValueError "could not convert string to float")
  end.

(** [float(s)] for a plain decimal literal: blanks around it, a sign, digits,
    a point, digits.  The other spellings [float] accepts (an exponent, [inf],
    [nan], underscores) are outside this definition; no match of the search
    pattern has them. *)
Definition py_float (s : string) : result Q :=
  match strip s with
  | String c s' =>
      if Ascii.eqb c "-" then unsigned_float true s'
      else if Ascii.eqb c "+" then unsigned_float false s'
      else unsigned_float false (String c s')
  | EmptyString => Raise (ValueError "could not convert string to float")
  end.

Section Scores.
Context {py : Builtins}.

Definition parse_score (text : pyval) : option Q :=
  match text with
  | PNone => None
  (* isinstance(text, (int, float)); bool is a subclass of int *)
  | PBool b => Some (inject_Z (if b then 1 else 0))
  | PInt n => Some (inject_Z n)
  | PFloat x => Some x
  | _ =>
      let text_str := strip (py_str text) in
      if String.eqb text_str EmptyString then None
      else
        match search_number text_str with
        | Some m =>
            match py_float m with
            | Ret x => Some x
            | Raise _ => None
            end
        | None => None
        end
  end.

(** [if isinstance(value, dict) and "value" in value: value = value["value"]] *)
Definition unwrap_value (value : pyval) : pyval :=
  match value with
  | PDict d =>
      match dict_get d "value" with
      | Some v => v
      | None => value
      end
  | _ => value
  end.



End Scores.

(** *** Statistics *)

Record ReviewStats : Type := {
  review_count : Z;
  scored_review_count : Z;
  scores : list Q;
  confidences : list Q;
  max_score : option Q;
  min_score : option Q;
  avg_score : option Q;
  avg_confidence : option Q
}.

(** [x > y] and [x < y] on floats *)
Definition Qgtb (x y : Q) : bool := negb (Qle_bool x y).
Definition Qltb (x y : Q) : bool := negb (Qle_bool y x).

(** [max(l)]: the first largest element. *)
Definition py_max (l : list Q) : result Q :=
  match l with
  | [] => Raise (ValueError "max() arg is an empty sequence")
  | x :: l' => Ret (fold_left (fun m y => if Qgtb y m then y else m) l' x)
  end.

(** [min(l)]: the first smallest element. *)
Definition py_min (l : list Q) : result Q :=
  match l with
  | [] => Raise (ValueError "min() arg is an empty sequence")
  | x :: l' => Ret (fold_left (fun m y => if Qltb y m then y else m) l' x)
  end.

(** [sum(l)] *)
Definition py_sum (l : list Q) : Q := fold_left Qplus l (inject_Z 0).

(** [len(l)] *)
Definition len {A} (l : list A) : Z := Z.of_nat (List.length l).

(** [x / n] *)
Definition py_div (x : Q) (n : Z) : result Q :=
  if Z.eqb n 0 then Raise (ZeroDivisionError "division by zero")
  else Ret (x / inject_Z n)%Q.

(** [e if l else None] *)
Definition if_nonempty (l : list Q) (e : result Q) : result (option Q) :=
  match l with
  | [] => Ret None
  | _ => rbind e (fun x => Ret (Some x))
  end.

(** The dict display both aggregators end with. *)
Definition stats_of (count : Z) (scores confidences : list Q) : result ReviewStats :=
  rbind (if_nonempty scores (py_max scores)) (fun mx =>
  rbind (if_nonempty scores (py_min scores)) (fun mn =>
  rbind (if_nonempty scores (py_div (py_sum scores) (len scores))) (fun avg =>
  rbind (if_nonempty confidences (py_div (py_sum confidences) (len confidences)))
    (fun avgc =>
  Ret {| review_count := count;
         scored_review_count := len scores;
         scores := scores;
         confidences := confidences;
         max_score := mx;
         min_score := mn;
         avg_score := avg;
         avg_confidence := avgc |})))).

(** [l.append(x)] when [x is not None] *)
Definition append_some (l : list Q) (x : option Q) : list Q :=
  match x with Some q => (l ++ [q])%list | None => l end.

Section Stats.
Context {py : Builtins}.



End Stats.

(** *** Keyword and score filters *)

(** [match_keywords]; [text] is whatever the caller read from a paper. *)
Definition match_keywords (text : pyval) (keywords : list string) (logic : string)
    : result bool :=
  if match keywords with [] => true | _ => false end || negb (truthy text)
  then Ret true
  else
    rbind (as_str text) (fun text =>
      let text_lower := str_lower text in
      if String.eqb (upper logic) "AND"
      then Ret (forallb (fun kw => contains (str_lower kw) text_lower) keywords)
      else Ret (existsb (fun kw => contains (str_lower kw) text_lower) keywords)).

(** [a + s] for a str [s] *)
Definition plus_str (a : pyval) (s : string) : result string :=
  match a with
  | PStr t => Ret (t ++ s)
  | _ => Raise (TypeError "unsupported operand type(s) for +")
  end.

Definition filter_paper_by_keywords (paper : dict) (keywords : list string)
    (field_scope logic : string) : result bool :=
  match keywords with
  | [] => Ret true
  | _ =>
      let title := py_or (get_default paper "title" (PStr "")) (PStr "") in
      let abstract := py_or (get_default paper "abstract" (PStr "")) (PStr "") in
      if String.eqb field_scope "title"
      then match_keywords title keywords logic
      else if String.eqb field_scope "abstract"
      then match_keywords abstract keywords logic
      else if String.eqb field_scope "title_or_abstract"
      then rbind (match_keywords title keywords logic) (fun in_title =>
             if (in_title : bool) then Ret true
             else match_keywords abstract keywords logic)
      else if String.eqb field_scope "title_and_abstract"
      then rbind (match_keywords title keywords logic) (fun in_title =>
             if (in_title : bool) then match_keywords abstract keywords logic
             else Ret false)
      else
        rbind (plus_str title " ") (fun t =>
        rbind (match abstract with
               | PStr a => Ret (t ++ a)
               | _ => Raise (TypeError "can only concatenate str to str")
               end) (fun both =>
        match_keywords (PStr both) keywords logic))
  end.

(** [v is None or v < bound] *)
Definition below (v : pyval) (bound : Q) : result bool :=
  match v with
  | PNone => Ret true
  | _ => py_lt v (PFloat bound)
  end.

(** One threshold of [filter_paper_by_scores]: [fails] says whether the paper
    is rejected; [rest] is what follows. *)
Definition check {A} (threshold : option A) (fails : A -> result bool)
    (rest : result bool) : result bool :=
  match threshold with
  | None => rest
  | Some t => rbind (fails t) (fun f => if (f : bool) then Ret false else rest)
  end.

Definition filter_paper_by_scores (paper : dict)
    (min_avg_score min_max_score : option Q) (min_review_count : option Z)
    (min_confidence : option Q) : result bool :=
  let avg_score := get paper "avg_score" in
  let max_score := get paper "max_score" in
  let scored_count := get_default paper "scored_review_count" (PInt 0) in
  let avg_confidence := get paper "avg_confidence" in
  check min_avg_score (below avg_score)
    (check min_max_score (below max_score)
       (check min_review_count (fun n => py_lt scored_count (PInt n))
          (check min_confidence (below avg_confidence) (Ret true)))).

Definition parse_keywords_input (input_str : string) : list string :=
  if String.eqb input_str EmptyString then []
  else
    let parts := split_blank (replace_char "," " " input_str) in
    map strip (filter (fun kw => negb (String.eqb (strip kw) EmptyString)) parts).

(** *** Sorting *)

(** The second component of a sort key: a value of the paper, or
    [float('inf')]. *)
Inductive sortval : Type :=
| SVal (v : pyval)
| SInf.

Definition sortkey : Type := (Z * sortval)%type.

(** The nested [get_sort_key] of [sort_papers]. *)
Definition get_sort_key (sort_by : string) (ascending : bool) (paper : dict) : sortkey :=
  match get paper sort_by with
  | PNone => if negb ascending then (1, SVal (PInt 0)) else (0, SInf)
  | PStr s => (0, SVal (PStr (str_lower s)))
  | value => (0, SVal value)
  end.

Definition sortval_eq (a b : sortval) : bool :=
  match a, b with
  | SVal v, SVal w => py_eq v w
  | SInf, SInf => true
  | _, _ => false
  end.

Definition sortval_lt (a b : sortval) : result bool :=
  match a, b with
  | SVal v, SVal w => py_lt v w
  | SInf, SInf => Ret false
  | SVal v, SInf =>
      match number_of v with
      | Some _ => Ret true
      | None => Raise (TypeError "'<' not supported between these instances")
      end
  | SInf, SVal w =>
      match number_of w with
      | Some _ => Ret false
      | None => Raise (TypeError "'<' not supported between these instances")
      end
  end.

(** [k1 < k2] on tuples: the first components decide unless they are equal. *)
Definition sortkey_lt (k1 k2 : sortkey) : result bool :=
  if Z.eqb (fst k1) (fst k2)
  then if sortval_eq (snd k1) (snd k2) then Ret false
       else sortval_lt (snd k1) (snd k2)
  else Ret (Z.ltb (fst k1) (fst k2)).

(** [sorted] is a stable sort that uses [<] alone; with [reverse] the order
    is descending and equal keys still keep their order.  Each element is
    inserted into the sorted rest of the list, before the first element that
    must not precede it. *)
Fixpoint insert_by_key {A} (reverse : bool) (x : sortkey * A)
    (l : list (sortkey * A)) : result (list (sortkey * A)) :=
  match l with
  | [] => Ret [x]
  | y :: l' =>
      rbind (if reverse then sortkey_lt (fst x) (fst y)
             else sortkey_lt (fst y) (fst x)) (fun after =>
        if (after : bool)
        then rbind (insert_by_key reverse x l') (fun r => Ret (y :: r))
        else Ret (x :: l))
  end.

Fixpoint sort_by_key {A} (reverse : bool) (l : list (sortkey * A))
    : result (list (sortkey * A)) :=
  match l with
  | [] => Ret []
  | x :: l' => rbind (sort_by_key reverse l') (insert_by_key reverse x)
  end.

(** [sorted(l, key=key, reverse=reverse)] *)
Definition sorted {A} (l : list A) (key : A -> sortkey) (reverse : bool)
    : result (list A) :=
  rbind (sort_by_key reverse (map (fun a => (key a, a)) l)) (fun r =>
    Ret (map snd r)).

Definition sort_papers (papers : list dict) (sort_by : string) (ascending : bool)
    : result (list dict) :=
  sorted papers (get_sort_key sort_by ascending) (negb ascending).

End parsing.

(** ** The outside world: the [openreview] and [requests] libraries *)

Module runtime.

(** Which class a client handle is an instance of. *)
Inductive client : Type :=
| ApiClient      (* openreview.api.OpenReviewClient *)
| LegacyClient.  (* openreview.Client *)

(** An [openreview] note object; [None] stands for an attribute the object
    does not have ([hasattr] is false). *)
Record Note : Type := {
  id : string;
  forum : option string;
  content : option pyval;
  details : option pyval
}.

(** A [requests] response: its status code and what [response.json()] does. *)
Record Response : Type := {
  status_code : Z;
  json : result pyval
}.

(** The program state: the module-level [_client_cache] and the network. *)
Record World (N : Type) : Type := {
  client_cache : option client;
  net : N
}.
Arguments client_cache {N} w.
Arguments net {N} w.

(** A computation that may raise and may change the world. *)
Definition M (N A : Type) : Type := World N -> result A * World N.

Definition ret {N A} (a : A) : M N A := fun w => (Ret a, w).
Definition raise {N A} (e : exn) : M N A := fun w => (Raise e, w).

Definition bind {N A B} (m : M N A) (k : A -> M N B) : M N B :=
  fun w =>
    match m w with
    | (Ret a, w') => k a w'
    | (Raise e, w') => (Raise e, w')
    end.

(** [try: m except Exception as e: h e] *)
Definition catch {N A} (m : M N A) (h : exn -> M N A) : M N A :=
  fun w =>
    match m w with
    | (Ret a, w') => (Ret a, w')
    | (Raise e, w') => h e w'
    end.

(** [try: m except AttributeError: h] *)
Definition catch_AttributeError {N A} (m : M N A) (h : M N A) : M N A :=
  fun w =>
    match m w with
    | (Ret a, w') => (Ret a, w')
    | (Raise e, w') => if is_AttributeError e then h w' else (Raise e, w')
    end.

(** A computation that does not touch the world. *)
Definition pure {N A} (r : result A) : M N A := fun w => (r, w).

(** A call into a library: it acts on the network only. *)
Definition call {N A} (f : N -> result A * N) : M N A :=
  fun w =>
    let (r, n') := f (net w) in
    (r, {| client_cache := client_cache w; net := n' |}).

(** The library calls the program makes.  Each may fail and each may change
    the network state, so two calls with the same arguments may differ. *)
Class Remote (N : Type) : Type := {
  (* openreview.api.OpenReviewClient(baseurl=...) *)
  OpenReviewClient : string -> N -> result client * N;
  (* openreview.Client(baseurl=...) *)
  Client : string -> N -> result client * N;
  (* list(client.get_all_notes(invitation=..., details="replies")) *)
  get_all_notes : client -> string -> N -> result (list Note) * N;
  (* hasattr(openreview, 'tools') and hasattr(openreview.tools, 'iterget_notes') *)
  has_iterget_notes : bool;
  (* list(openreview.tools.iterget_notes(client, invitation=..., details='replies')) *)
  iterget_notes : client -> string -> N -> result (list Note) * N;
  (* client.get_notes(invitation=..., limit=..., details='replies') *)
  get_notes : client -> string -> Z -> N -> result (list Note) * N;
  (* requests.get(url, timeout=...) *)
  requests_get : string -> Z -> N -> result Response * N;
  (* time.sleep(seconds) *)
  sleep : Z -> N -> N
}.

Declare Scope py_scope.
Delimit Scope py_scope with py.
Notation "x <- m ;; k" := (bind m (fun x => k))
  (at level 61, m at next level, right associativity) : py_scope.

End runtime.
Export runtime.

(** ** web_scraper.py *)

Module web_scraper.

Definition AAAI_GITHUB_URL_TEMPLATE : string :=
  "https://raw.githubusercontent.com/papercopilot/paperlists/main/aaai/aaai{year}.json".

(** [response.raise_for_status()] *)
Definition raise_for_status (r : Response) : result unit :=
  if Z.leb 400 (status_code r) && Z.ltb (status_code r) 600
  then Raise (OtherException "HTTPError" (str_of_int (status_code r)))
  else Ret tt.

(** Digits with single underscores between them. *)
Fixpoint int_digits (after_digit : bool) (acc : Z) (s : string) : option Z :=
  match s with
  | EmptyString => if after_digit then Some acc else None
  | String c s' =>
      if is_digit c then int_digits true (10 * acc + digit_value c) s'
      else if Ascii.eqb c "_" && after_digit then int_digits false acc s'
      else None
  end.

(** [int(s)] for a str: blanks around, a sign, decimal digits. *)
Definition py_int (s : string) : result Z :=
  let bad := Raise (ValueError "invalid literal for int() with base 10") in
  match strip s with
  | EmptyString => bad
  | String c s' =>
      if Ascii.eqb c "-"
      then match int_digits false 0 s' with Some n => Ret (- n) | None => bad end
      else if Ascii.eqb c "+"
      then match int_digits false 0 s' with Some n => Ret n | None => bad end
      else match int_digits false 0 (String c s') with Some n => Ret n | None => bad end
  end.

(** The pattern [20\d{2}] matched at the start of [s]. *)
Definition match_year (s : string) : option string :=
  match s with
  | String a (String b (String c (String d _))) =>
      if Ascii.eqb a "2" && Ascii.eqb b "0" && is_digit c && is_digit d
      then Some (String a (String b (String c (String d EmptyString))))
      else None
  | _ => None
  end.

(** [re.search(r'20\d{2}', s)] *)
Fixpoint search_year (s : string) : option string :=
  match match_year s with
  | Some y => Some y
  | None =>
      match s with
      | EmptyString => None
      | String _ s' => search_year s'
      end
  end.

(** [[a.strip() for a in authors_str.split(';')] if authors_str else []] *)
Definition split_authors (authors_str : pyval) : result (list string) :=
  if truthy authors_str
  then rbind (as_str authors_str) (fun s => Ret (map strip (split ";" s)))
  else Ret [].

(** The body of the loop of [fetch_aaai_from_github]: one entry of the data
    set to one paper. *)
Definition aaai_note (year : string) (item : pyval) : result dict :=
  rbind (as_dict item) (fun item =>
  let authors_str := get_default item "author" (PStr "") in
  rbind (split_authors authors_str) (fun authors =>
  let title := get_default item "title" (PStr "Untitled") in
  rbind (py_int year) (fun year_int =>
  Ret (dict_of_items
    [ ("id", get_default item "id" (PStr "unknown"));
      ("forum", get_default item "id" (PStr "unknown"));
      ("title", title);
      ("abstract", get_default item "abstract" (PStr ""));
      ("authors", PList (map PStr authors));
      ("keywords", PList []);
      ("tldr", PStr "");
      ("pdf", get_default item "pdf" (PStr ""));
      ("venue", PStr ("AAAI " ++ year));
      ("venue_id", PStr ("AAAI.org/" ++ year ++ "/Conference"));
      ("year", PInt year_int);
      ("avg_score", PNone);
      ("max_score", PNone);
      ("min_score", PNone);
      ("scored_review_count", PInt 0);
      ("score_distribution", PDict []) ])))).

Section Scraper.
Context {N : Type} {R : Remote N}.
Local Open Scope py_scope.

Definition fetch_aaai_from_github (year : string) : M N (list dict) :=
  let url := config.format_year AAAI_GITHUB_URL_TEMPLATE year in
  catch
    (response <- call (requests_get url 30) ;;
     if Z.eqb (status_code response) 404 then ret []
     else
       _ <- pure (raise_for_status response) ;;
       data <- pure (json response) ;;
       items <- pure (iterate data) ;;
       notes <- pure (rmap_list (aaai_note year) items) ;;
       ret notes)
    (fun e => ret []).

Definition scrape_venue (venue_id : string) : M N (list dict) :=
  if contains "AAAI" venue_id
  then match search_year venue_id with
       | Some year => fetch_aaai_from_github year
       | None => ret []
       end
  else ret [].

End Scraper.

End web_scraper.

(** ** openreview_client.py *)

Module openreview_client.
Import parsing.

Definition REVIEW_INDICATOR_KEYS : list string :=
  [ "rating"; "recommendation"; "soundness"; "contribution"; "summary";
    "weaknesses"; "strengths_and_weaknesses"; "quality"; "clarity";
    "significance"; "originality"; "confidence"; "questions"; "limitations";
    "Overall Recommendation"; "overall_recommendation" ].

Definition is_review_reply (reply : dict) : result bool :=
  let content := get_default reply "content" (PDict []) in
  if negb (truthy content) then Ret false
  else
    rbind (as_dict content) (fun content =>
      (* len(set(content.keys()) & REVIEW_INDICATOR_KEYS) *)
      let matches := len (filter (dict_has content) REVIEW_INDICATOR_KEYS) in
      Ret (Z.leb 1 matches)).

(** [if isinstance(v, dict): v = v.get('value', '')] *)
Definition value_of (v : pyval) : pyval :=
  match v with
  | PDict d => get_default d "value" (PStr "")
  | _ => v
  end.

Section Replies.
Context {py : Builtins}.

(** [if v: ...; parsed = parse_score(v); if parsed is not None: l.append(parsed)] *)
Definition append_parsed (l : list Q) (v : pyval) : list Q :=
  if truthy v then append_some l (parse_score (value_of v)) else l.

(** The [for reply in replies] loop of [extract_scores_from_replies]. *)
Fixpoint collect_replies (replies : list dict) (scores confidences : list Q)
    (review_count : Z) : result (list Q * list Q * Z) :=
  match replies with
  | [] => Ret (scores, confidences, review_count)
  | reply :: rest =>
      rbind (is_review_reply reply) (fun is_review =>
        if (is_review : bool) then
          let review_count := review_count + 1 in
          rbind (as_dict (get_default reply "content" (PDict []))) (fun content =>
            let rating :=
              py_or (get content "rating")
                (py_or (get content "recommendation")
                   (py_or (get content "score")
                      (py_or (get content "Overall Recommendation")
                         (get content "overall_recommendation")))) in
            let scores := append_parsed scores rating in
            let confidence := get content "confidence" in
            let confidences := append_parsed confidences confidence in
            collect_replies rest scores confidences review_count)
        else collect_replies rest scores confidences review_count)
  end.

Definition extract_scores_from_replies (replies : list dict) : result ReviewStats :=
  rbind (collect_replies replies [] [] 0) (fun acc =>
    let '(scores, confidences, review_count) := acc in
    stats_of review_count scores confidences).

End Replies.

Definition opt_float (x : option Q) : pyval :=
  match x with Some q => PFloat q | None => PNone end.

(** The items of the dict [extract_scores_from_replies] returns. *)
Definition stats_items (st : ReviewStats) : list (string * pyval) :=
  [ ("review_count", PInt (review_count st));
    ("scored_review_count", PInt (scored_review_count st));
    ("scores", PList (map PFloat (scores st)));
    ("confidences", PList (map PFloat (confidences st)));
    ("max_score", opt_float (max_score st));
    ("min_score", opt_float (min_score st));
    ("avg_score", opt_float (avg_score st));
    ("avg_confidence", opt_float (avg_confidence st)) ].

(** The nested [get_val] of the note loop. *)
Definition get_val (content : dict) (key : string) : pyval :=
  unwrap_value (get content key).

(** [p.get("scored_review_count", 0) > 0] *)
Definition has_scored_review (p : dict) : result bool :=
  match get_default p "scored_review_count" (PInt 0) with
  | PInt n => Ret (Z.ltb 0 n)
  | PBool b => Ret b
  | PFloat x => Ret (Qgtb x (inject_Z 0))
  | _ => Raise (TypeError "'>' not supported between these instances")
  end.

(** [sum(1 for p in papers if p.get("scored_review_count", 0) > 0)] *)
Fixpoint count_reviewed (papers : list dict) : result Z :=
  match papers with
  | [] => Ret 0
  | p :: rest =>
      rbind (has_scored_review p) (fun b =>
      rbind (count_reviewed rest) (fun n => Ret (if (b : bool) then 1 + n else n)))
  end.

Definition base_url : string := "https://openreview.net".

Section Papers.
Context {py : Builtins}.

(** The body of the [for note in notes] loop: one note to one paper. *)
Definition note_to_paper (venue_id : string) (note : Note) : result dict :=
  let content := match content note with Some c => c | None => PDict [] end in
  rbind (match details note with
         | Some d =>
             if truthy d
             then rbind (as_dict d) (fun d => Ret (get_default d "replies" (PList [])))
             else Ret (PList [])
         | None => Ret (PList [])
         end) (fun replies =>
  rbind (iterate replies) (fun replies =>
  rbind (rmap_list as_dict replies) (fun replies =>
  rbind (extract_scores_from_replies replies) (fun score_stats =>
  rbind (as_dict content) (fun content =>
  let paper :=
    dict_of_items
      ([ ("id", PStr (id note));
         ("forum", PStr (match forum note with Some f => f | None => id note end));
         ("title", py_or (get_val content "title") (PStr "Untitled"));
         ("abstract", py_or (get_val content "abstract") (PStr ""));
         ("authors", py_or (get_val content "authors") (PList []));
         ("keywords", py_or (get_val content "keywords") (PList []));
         ("tldr", py_or (py_or (get_val content "TL;DR") (get_val content "tldr"))
                        (PStr ""));
         ("pdf", py_or (get_val content "pdf") (PStr ""));
         ("venue_id", PStr venue_id) ]
       ++ stats_items score_stats)%list in
  let paper :=
    dict_set paper "openreview_url"
      (PStr (base_url ++ "/forum?id=" ++ py_str (get paper "forum"))) in
  let pdf := get paper "pdf" in
  if truthy pdf
  then rbind (as_str pdf) (fun s =>
         if negb (startswith s "http")
         then Ret (dict_set paper "pdf_url" (PStr (base_url ++ s)))
         else Ret (dict_set paper "pdf_url" pdf))
  else Ret (dict_set paper "pdf_url" pdf)))))).

End Papers.

Section Client.
Context {N : Type} {R : Remote N} {py : Builtins}.
Local Open Scope py_scope.

Definition create_client : M N client :=
  fun w =>
    match client_cache w with
    | Some c => (Ret c, w)
    | None =>
        let store (c : client) : M N client :=
          fun w' => (Ret c, {| client_cache := Some c; net := net w' |}) in
        catch
          (c <- call (OpenReviewClient "https://api2.openreview.net") ;; store c)
          (fun _ => c <- call (Client "https://api.openreview.net") ;; store c)
          w
    end.

(** The loop of [retry_with_backoff]; [attempt] counts from 0 and [left] is
    the number of attempts not yet made. *)
Fixpoint retry_loop {A} (func : M N A) (max_retries : Z) (base_delay : Z)
    (left : nat) (attempt : Z) (last_error : option exn) : M N A :=
  match left with
  | O =>
      raise (OpenReviewClientError
               ("API failed after " ++ str_of_int max_retries ++ " attempts: "
                ++ match last_error with Some e => exn_str e | None => "None" end))
  | S left' =>
      fun w =>
        match func w with
        | (Ret a, w') => (Ret a, w')
        | (Raise e, w') =>
            let w'' :=
              if Z.ltb attempt (max_retries - 1)
              then {| client_cache := client_cache w';
                      net := sleep (base_delay * 2 ^ attempt) (net w') |}
              else w' in
            retry_loop func max_retries base_delay left' (attempt + 1) (Some e) w''
        end
  end.

Definition retry_with_backoff {A} (func : M N A) : M N A :=
  retry_loop func (Z.of_nat config.API_RETRY_MAX) config.API_RETRY_DELAY_BASE
    config.API_RETRY_MAX 0 None.

(** The loop over the alternative invitations on the current API: the first
    pattern with notes ends it, a failing pattern is skipped. *)
Fixpoint try_patterns (c : client) (patterns : list string) (notes : list Note)
    : M N (list Note) :=
  match patterns with
  | [] => ret notes
  | pattern :: rest =>
      fun w =>
        match retry_with_backoff (call (get_all_notes c pattern)) w with
        | (Ret notes', w') =>
            match notes' with
            | [] => try_patterns c rest notes' w'
            | _ => (Ret notes', w')
            end
        | (Raise _, w') => try_patterns c rest notes w'
        end
  end.

(** One attempt on the previous API generation. *)
Definition v1_get (v1_client : client) (p : string) : M N (list Note) :=
  if has_iterget_notes then call (iterget_notes v1_client p)
  else call (get_notes v1_client p 3000).

(** The loop over [v1_patterns]. *)
Fixpoint try_v1_patterns (v1_client : client) (patterns : list string)
    (notes : list Note) : M N (list Note) :=
  match patterns with
  | [] => ret notes
  | p :: rest =>
      fun w =>
        match v1_get v1_client p w with
        | (Ret notes', w') =>
            match notes' with
            | [] => try_v1_patterns v1_client rest notes' w'
            | _ => (Ret notes', w')
            end
        | (Raise _, w') => try_v1_patterns v1_client rest notes w'
        end
  end.

(** The block under [if not notes:] that turns to the previous API. *)
Definition v1_fallback (venue_id : string) (notes : list Note) : M N (list Note) :=
  catch
    (v1_client <-
       catch_AttributeError (call (Client "https://api.openreview.net"))
                            (call (Client "https://api.openreview.net")) ;;
     try_v1_patterns v1_client
       [ venue_id ++ "/-/Submission";
         venue_id ++ "/-/Blind_Submission";
         venue_id ++ "/-/Paper" ] notes)
    (fun _ => ret notes).

(** The test of the delegation loop at the head of
    [fetch_submissions_with_reviews]. *)
Definition is_web_venue (venue_id : string) : bool :=
  existsb (fun kv =>
             match config.source (snd kv) with
             | Some s => String.eqb s "web" && contains (fst kv) venue_id
             | None => false
             end) config.VENUE_MAPPINGS.

(** The body of the [try] block. *)
Definition fetch_notes_and_build (c : client) (venue_id : string)
    : M N (list dict * string) :=
  notes <- retry_with_backoff
             (call (get_all_notes c (venue_id ++ "/-/Submission"))) ;;
  notes <- match notes with
           | [] => try_patterns c [ venue_id ++ "/-/Blind_Submission";
                                    venue_id ++ "/-/Paper" ] notes
           | _ => ret notes
           end ;;
  notes <- match notes with
           | [] => v1_fallback venue_id notes
           | _ => ret notes
           end ;;
  papers <- pure (rmap_list (note_to_paper venue_id) notes) ;;
  reviewed_count <- pure (count_reviewed papers) ;;
  ret (papers,
       "Fetched " ++ str_of_int (len papers) ++ " papers ("
       ++ str_of_int reviewed_count ++ " with reviews)").

(** The function under its [st.cache_data] decorator, which keeps returned
    pairs by [venue_id] for [CACHE_TTL_HOURS] hours; this is what runs when
    the store has no entry for [venue_id]. *)
Definition fetch_submissions_with_reviews (venue_id : string)
    : M N (list dict * string) :=
  if is_web_venue venue_id
  then papers <- web_scraper.scrape_venue venue_id ;; ret (papers, "")
  else
    c <- create_client ;;
    catch (fetch_notes_and_build c venue_id)
          (fun e => ret ([], "Error: " ++ exn_str e)).

End Client.

(** The request [fetch_submissions_cached] makes:
    [list(client.get_all_notes(invitation=...))], without the replies. *)
Class RemoteSubmissions (N : Type) : Type := {
  get_all_submissions : client -> string -> N -> result (list Note) * N
}.

(** The body of the note loop of [fetch_submissions_cached]. *)
Definition note_to_submission (venue_id : string) (note : Note) : result dict :=
  let content := match content note with Some c => c | None => PDict [] end in
  rbind (as_dict content) (fun content =>
  let submission :=
    dict_of_items
      [ ("id", PStr (id note));
        ("forum", PStr (match forum note with Some f => f | None => id note end));
        ("title", py_or (get_val content "title") (PStr "Untitled"));
        ("abstract", py_or (get_val content "abstract") (PStr ""));
        ("authors", py_or (get_val content "authors") (PList []));
        ("keywords", py_or (get_val content "keywords") (PList []));
        ("tldr", py_or (py_or (get_val content "TL;DR") (get_val content "tldr"))
                       (PStr ""));
        ("pdf", py_or (get_val content "pdf") (PStr ""));
        ("venue_id", PStr venue_id) ] in
  let submission :=
    dict_set submission "openreview_url"
      (PStr (base_url ++ "/forum?id="
             ++ match forum note with Some f => f | None => id note end)) in
  let pdf := get submission "pdf" in
  if truthy pdf
  then rbind (as_str pdf) (fun s =>
         if negb (startswith s "http")
         then Ret (dict_set submission "pdf_url" (PStr (base_url ++ s)))
         else Ret (dict_set submission "pdf_url" pdf))
  else Ret (dict_set submission "pdf_url" pdf)).

Section Submissions.
Context {N : Type} {R : Remote N} {S : RemoteSubmissions N}.
Local Open Scope py_scope.

(** The loop over the alternative invitations of [fetch_submissions_cached]. *)
Fixpoint try_submission_patterns (c : client) (patterns : list string)
    (notes : list Note) : M N (list Note) :=
  match patterns with
  | [] => ret notes
  | pattern :: rest =>
      fun w =>
        match retry_with_backoff (call (get_all_submissions c pattern)) w with
        | (Ret notes', w') =>
            match notes' with
            | [] => try_submission_patterns c rest notes' w'
            | _ => (Ret notes', w')
            end
        | (Raise _, w') => try_submission_patterns c rest notes w'
        end
  end.

(** [fetch_submissions_cached], under the same decorator as
    [fetch_submissions_with_reviews]. *)
Definition fetch_submissions_cached (venue_id : string)
    : M N (list dict * string) :=
  c <- create_client ;;
  catch
    (notes <- catch (retry_with_backoff
                       (call (get_all_submissions c (venue_id ++ "/-/Submission"))))
                    (fun _ => ret []) ;;
     notes <- match notes with
              | [] => try_submission_patterns c
                        [ venue_id ++ "/-/Blind_Submission";
                          venue_id ++ "/-/Paper" ] notes
              | _ => ret notes
              end ;;
     submissions <- pure (rmap_list (note_to_submission venue_id) notes) ;;
     ret (submissions,
          "Fetched " ++ str_of_int (len submissions) ++ " submissions"))
    (fun e => ret ([], "Error: " ++ exn_str e)).

End Submissions.

End openreview_client.

(** ** app.py *)

Module app.
Import parsing.

(** The dict [render_sidebar_filters] returns, as far as [apply_filters]
    reads it. *)
Record Filters : Type := {
  keywords : list string;
  keyword_logic : string;
  field_scope : string;
  min_avg_score : option Q;
  min_max_score : option Q;
  min_review_count : option Z;
  min_confidence : option Q;
  only_reviewed : bool;
  sort_by : string
}.

(** The body of the loop of [apply_filters]: whether the paper is kept. *)
Definition keeps (filters : Filters) (paper : dict) : result bool :=
  if only_reviewed filters
     && py_eq (get_default paper "scored_review_count" (PInt 0)) (PInt 0)
  then Ret false
  else
    rbind (filter_paper_by_keywords paper (keywords filters) (field_scope filters)
             (keyword_logic filters)) (fun by_keywords =>
      if negb by_keywords then Ret false
      else
        rbind (filter_paper_by_scores paper (min_avg_score filters)
                 (min_max_score filters) (min_review_count filters)
                 (min_confidence filters)) (fun by_scores =>
          Ret by_scores)).

(** The loop of [apply_filters]. *)
Fixpoint keep_all (filters : Filters) (papers : list dict) : result (list dict) :=
  match papers with
  | [] => Ret []
  | paper :: rest =>
      rbind (keeps filters paper) (fun kept =>
      rbind (keep_all filters rest) (fun filtered =>
      Ret (if (kept : bool) then paper :: filtered else filtered)))
  end.

Definition apply_filters (papers : list dict) (filters : Filters)
    : result (list dict) :=
  rbind (keep_all filters papers) (fun filtered =>
    sort_papers filtered (sort_by filters) false).

End app.

(** ** Sample worlds and data *)

Module samples.
Import parsing openreview_client web_scraper.

(** A stand-in for [str] on floats, lists and dicts; the samples apply [str]
    to strings only. *)
Definition sample_builtins : Builtins := {| str_other := fun _ => "<object>" |}.

(** A network that keeps a log of the requests it received and answers from
    fixed tables. *)
Definition scripted (new_client : result client) (has_tools : bool)
    (notes_for : string -> result (list Note))
    (page_for : string -> result Response) : Remote (list string) :=
  {| OpenReviewClient := fun url log => (new_client, (log ++ ["new api2 client"])%list);
     Client := fun url log => (new_client, (log ++ ["new api client"])%list);
     get_all_notes := fun c inv log => (notes_for inv, (log ++ [inv])%list);
     has_iterget_notes := has_tools;
     iterget_notes := fun c inv log => (notes_for inv, (log ++ [String.append "v1 " inv])%list);
     get_notes := fun c inv limit log => (notes_for inv, (log ++ [String.append "v1 " inv])%list);
     requests_get := fun url timeout log => (page_for url, (log ++ [url])%list);
     sleep := fun seconds log => log |}.

Definition connection_error : exn :=
  OtherException "ConnectionError" "connection refused".

(** No client can be built and no request succeeds. *)
Definition offline : Remote (list string) :=
  scripted (Raise connection_error) true
           (fun _ => Raise connection_error) (fun _ => Raise connection_error).

Definition fresh : World (list string) := {| client_cache := None; net := [] |}.

Definition sample_reply : pyval :=
  PDict [ ("content",
           PDict [ ("rating", PDict [("value", PStr "6: Strong Accept")]);
                   ("confidence", PDict [("value", PStr "4")]) ]) ].

Definition sample_note : Note :=
  {| id := "n1";
     forum := Some "f1";
     content := Some (PDict [ ("title", PDict [("value", PStr "A paper")]);
                              ("pdf", PDict [("value", PStr "/pdf/n1.pdf")]) ]);
     details := Some (PDict [("replies", PList [sample_reply])]) |}.

(** A venue whose records live under the [Blind_Submission] invitation. *)
Definition blind_venue : Remote (list string) :=
  scripted (Ret ApiClient) true
    (fun inv =>
       if String.eqb inv "Old.cc/2019/Conference/-/Blind_Submission"
       then Ret [sample_note] else Ret [])
    (fun _ => Raise connection_error).

Definition aaai_page : Response :=
  {| status_code := 200;
     json := Ret (PList [ PDict [ ("id", PStr "a1");
                                  ("title", PStr "Planning");
                                  ("author", PStr "Ada L.; Bob K.") ] ]) |}.

Definition not_found : Response :=
  {| status_code := 404; json := Raise (ValueError "no JSON") |}.

(** The community data set has 2025 and nothing else. *)
Definition aaai_site : Remote (list string) :=
  scripted (Ret ApiClient) true (fun _ => Ret [])
    (fun url =>
       if contains "aaai2025.json" url then Ret aaai_page else Ret not_found).




(** The paper of [sample_note]. *)
Definition sample_paper : dict :=
  [ ("id", PStr "n1"); ("forum", PStr "f1"); ("title", PStr "A paper");
    ("abstract", PStr ""); ("authors", PList []); ("keywords", PList []);
    ("tldr", PStr ""); ("pdf", PStr "/pdf/n1.pdf");
    ("venue_id", PStr "Old.cc/2019/Conference");
    ("review_count", PInt 1); ("scored_review_count", PInt 1);
    ("scores", PList [PFloat (inject_Z 6)]);
    ("confidences", PList [PFloat (inject_Z 4)]);
    ("max_score", PFloat (inject_Z 6)); ("min_score", PFloat (inject_Z 6));
    ("avg_score", PFloat (inject_Z 6)); ("avg_confidence", PFloat (inject_Z 4));
    ("openreview_url", PStr "https://openreview.net/forum?id=f1");
    ("pdf_url", PStr "https://openreview.net/pdf/n1.pdf") ].

(** The worlds of a fetch from [blind_venue], one request after the other. *)
Definition blind_world (requests : list string) : World (list string) :=
  {| client_cache := Some ApiClient; net := ("new api2 client" :: requests)%list |}.

(** The paper of the entry of [aaai_page]. *)
Definition aaai_paper : dict :=
  [ ("id", PStr "a1"); ("forum", PStr "a1"); ("title", PStr "Planning");
    ("abstract", PStr ""); ("authors", PList [PStr "Ada L."; PStr "Bob K."]);
    ("keywords", PList []); ("tldr", PStr ""); ("pdf", PStr "");
    ("venue", PStr "AAAI 2025"); ("venue_id", PStr "AAAI.org/2025/Conference");
    ("year", PInt 2025); ("avg_score", PNone); ("max_score", PNone);
    ("min_score", PNone); ("scored_review_count", PInt 0);
    ("score_distribution", PDict []) ].

(** The requests without replies: [Submission] cannot be read, the records
    are under [Blind_Submission]. *)
Definition blind_submissions : RemoteSubmissions (list string) :=
  {| get_all_submissions := fun c inv log =>
       ((if String.eqb inv "Old.cc/2019/Conference/-/Submission"
         then Raise connection_error
         else if String.eqb inv "Old.cc/2019/Conference/-/Blind_Submission"
         then Ret [sample_note] else Ret []),
        (log ++ [inv])%list) |}.


(** The entry of [aaai_page]. *)
Definition aaai_entry : pyval :=
  PDict [ ("id", PStr "a1"); ("title", PStr "Planning");
          ("author", PStr "Ada L.; Bob K.") ].

(** A process that has built its client already. *)
Definition with_client : World (list string) :=
  {| client_cache := Some ApiClient; net := [] |}.

(** Filters that ask for the word "paper" in the title and sort by the
    average score. *)
Definition title_filters : app.Filters :=
  {| app.keywords := ["paper"];
     app.keyword_logic := "OR";
     app.field_scope := "title";
     app.min_avg_score := None;
     app.min_max_score := None;
     app.min_review_count := None;
     app.min_confidence := None;
     app.only_reviewed := false;
     app.sort_by := "avg_score" |}.

End samples.

(** ** Vocabulary of the statements *)

Module spec.
Import parsing openreview_client web_scraper.

(** *** Venue resolver *)

(** Two names are the same up to the case of their letters. *)
Definition same_ignoring_case (a b : string) : bool :=
  String.eqb (upper a) (upper b).

(** A name matches a configuration when it is, up to case, its canonical key
    or one of its aliases. *)
Definition names_venue (venue_name key : string) (cfg : config.VenueConfig) : bool :=
  same_ignoring_case venue_name key
  || existsb (same_ignoring_case venue_name) (config.aliases cfg).

(** A name matches a configuration the way the resolver compares them: the
    upper-cased name with the blanks around it removed against the upper-cased
    key, the lower-cased name against the lower-cased aliases. *)
Definition resolver_match (venue_name key : string) (cfg : config.VenueConfig) : Prop :=
  strip (upper venue_name) = upper key
  \/ In (lower venue_name) (map lower (config.aliases cfg)).


(** *** Score parser *)

Fixpoint has_digit (s : string) : bool :=
  match s with
  | EmptyString => false
  | String c s' => is_digit c || has_digit s'
  end.

Definition starts_with (p : ascii -> bool) (s : string) : bool :=
  match s with
  | EmptyString => false
  | String c _ => p c
  end.

Fixpoint ends_with (p : ascii -> bool) (s : string) : bool :=
  match s with
  | EmptyString => false
  | String c s' =>
      match s' with
      | EmptyString => p c
      | _ => ends_with p s'
      end
  end.

Definition is_minus (c : ascii) : bool := Ascii.eqb c "-".
Definition is_point (c : ascii) : bool := Ascii.eqb c ".".

(** The text of a signed decimal: an optional minus sign, digits, and an
    optional fraction, which is a point and digits. *)
Definition literal (neg : bool) (ds : string) (fr : option string) : string :=
  (if neg then "-" else "") ++ ds
  ++ match fr with Some fs => String "." fs | None => "" end.


(** [literal neg ds fr] is the first signed decimal of [s], read left to
    right: it is a substring of [s]; one or more digits; no digit stands
    before it, and no minus sign stands just before it unless it has its own;
    it extends as far as digits and one point allow. *)
Definition first_literal (s : string) (neg : bool) (ds : string)
    (fr : option string) : Prop :=
  exists pre post,
    s = pre ++ literal neg ds fr ++ post
    /\ ds <> "" /\ all_digits ds = true
    /\ match fr with
       | Some fs => all_digits fs = true
       | None => starts_with is_point post = false
       end
    /\ has_digit pre = false
    /\ (neg = false -> ends_with is_minus pre = false)
    /\ starts_with is_digit post = false.


(** *** Review aggregator *)


(** The content mapping of a reply record, empty when it has none. *)
Definition reply_content (reply : dict) : dict :=
  match dict_get reply "content" with
  | Some (PDict d) => d
  | _ => []
  end.

(** A reply is a review when a key of its content is a recognised one. *)
Definition is_review (reply : dict) : bool :=
  existsb (dict_has (reply_content reply)) REVIEW_INDICATOR_KEYS.






Section Rules.
Context {py : Builtins}.








End Rules.



(** *** Papers *)






(** *** Notes *)



(** The [content] of a note, when it has one, is a mapping whose [pdf], when
    it has one, is a string or empty. *)
Definition content_ok (note : Note) : bool :=
  match content note with
  | None => true
  | Some (PDict c) =>
      match unwrap_value (get c "pdf") with
      | PStr _ => true
      | v => negb (truthy v)
      end
  | Some _ => false
  end.


(** The address of the data set of a year. *)
Definition aaai_url (year : string) : string :=
  config.format_year AAAI_GITHUB_URL_TEMPLATE year.

End spec.

(** ** Vocabulary of the further properties *)

Module spec_more.
Import parsing openreview_client web_scraper spec.

(** The world after [time.sleep(seconds)]. *)
Definition after_sleep {N} {R : Remote N} (seconds : Z) (w : World N) : World N :=
  {| client_cache := client_cache w; net := sleep seconds (net w) |}.

(** The message of the error [retry_with_backoff] gives up with. *)
Definition gave_up (last_error : exn) : exn :=
  OpenReviewClientError ("API failed after 3 attempts: " ++ exn_str last_error).


(** The status line of a fetch that went through. *)
Definition fetched_status (papers reviewed : Z) : string :=
  "Fetched " ++ str_of_int papers ++ " papers ("
  ++ str_of_int reviewed ++ " with reviews)".



(** The organisations of the configured patterns, each with its slash. *)
Definition VENUE_ORGS : list string :=
  [ "ICLR.cc/"; "NeurIPS.cc/"; "NIPS.cc/"; "ICML.cc/"; "AAAI.org/" ].

(** The identifier of the AAAI conference of a year. *)
Definition aaai_venue_id (year : Z) : string :=
  "AAAI.org/" ++ str_of_int year ++ "/Conference".

(** The year the dispatcher reads in the AAAI identifier of [year] is [year]
    in decimal, and [int] reads it back. *)
Definition year_survives (year : Z) : bool :=
  match search_year (aaai_venue_id year) with
  | Some s => String.eqb s (str_of_int year)
  | None => false
  end
  && match py_int (str_of_int year) with
     | Ret n => Z.eqb n year
     | Raise _ => false
     end.

(** *** Filters *)

(** Some character of [s] satisfies [p]. *)
Fixpoint has_char (p : ascii -> bool) (s : string) : bool :=
  match s with
  | EmptyString => false
  | String c s' => p c || has_char p s'
  end.

Definition is_comma (c : ascii) : bool := Ascii.eqb c ",".

(** A statistic reaches a threshold: no threshold, or a value not below it. *)
Definition reaches (v : option Q) (threshold : option Q) : bool :=
  match threshold with
  | None => true
  | Some t => match v with Some x => Qle_bool t x | None => false end
  end.

(** A count reaches a threshold. *)
Definition enough (n : Z) (threshold : option Z) : bool :=
  match threshold with
  | None => true
  | Some t => Z.leb t n
  end.

Definition is_none {A} (x : option A) : bool :=
  match x with None => true | Some _ => false end.

(** *** Sorting *)

(** The number under [sort_by], when the paper has one. *)
Definition sort_value (sort_by : string) (p : dict) : option Q :=
  match get p sort_by with
  | PInt n => Some (inject_Z n)
  | PFloat x => Some x
  | _ => None
  end.

(** The paper has a number under [sort_by], or nothing. *)
Definition sortable (sort_by : string) (p : dict) : bool :=
  match get p sort_by with
  | PNone | PInt _ | PFloat _ => true
  | _ => false
  end.

(** The key of [p] is below the key of [q]: a paper without a value has the
    largest key, in both directions of sorting. *)
Definition ranks_below (sort_by : string) (p q : dict) : bool :=
  match sort_value sort_by p, sort_value sort_by q with
  | None, _ => false
  | Some _, None => true
  | Some x, Some y => Qltb x y
  end.

(** [p] may stand before [q] in the sorted list. *)
Definition in_order (sort_by : string) (ascending : bool) (p q : dict) : Prop :=
  if ascending then ranks_below sort_by q p = false
  else ranks_below sort_by p q = false.

(** [p] and [q] have equal keys. *)
Definition same_rank (sort_by : string) (p q : dict) : bool :=
  negb (ranks_below sort_by p q) && negb (ranks_below sort_by q p).

(** The list [sorted] works on: every element with its key. *)
Definition keyed (key : dict -> sortkey) (l : list dict) : list (sortkey * dict) :=
  map (fun a => (key a, a)) l.

(** The loop of [apply_filters] keeps the paper. *)
Definition kept_by (filters : app.Filters) (p : dict) : bool :=
  match app.keeps filters p with
  | Ret true => true
  | _ => false
  end.

End spec_more.

(** * Properties *)

Import parsing openreview_client web_scraper spec.

(** ** Venue resolver *)

Section Resolver.

Lemma str_in_In (x : string) (l : list string) :
  config.str_in x l = true <-> In x l.
Proof.
  unfold config.str_in. rewrite existsb_exists. split.
  - intros [y [Hy Hxy]]. apply String.eqb_eq in Hxy. now subst.
  - intros Hx. exists x. split; [assumption|apply String.eqb_refl].
Qed.

Lemma venue_matches_iff (venue_name key : string) (cfg : config.VenueConfig) :
  config.venue_matches venue_name key cfg = true <-> resolver_match venue_name key cfg.
Proof.
  unfold config.venue_matches, resolver_match.
  rewrite orb_true_iff, String.eqb_eq, str_in_In. reflexivity.
Qed.

Lemma find_venue_none (venue_name : string) (l : list (string * config.VenueConfig)) :
  (forall key cfg, In (key, cfg) l -> ~ resolver_match venue_name key cfg) ->
  config.find_venue venue_name l = None.
Proof.
  induction l as [|[key cfg] l IH]; intros Hno; simpl; [reflexivity|].
  destruct (config.venue_matches venue_name key cfg) eqn:E.
  - apply venue_matches_iff in E. exfalso. apply (Hno key cfg); [now left|assumption].
  - apply IH. intros k c Hin. apply Hno. now right.
Qed.

Lemma find_venue_some (venue_name : string) (l : list (string * config.VenueConfig))
    (cfg : config.VenueConfig) :
  config.find_venue venue_name l = Some cfg ->
  exists key, In (key, cfg) l /\ resolver_match venue_name key cfg.
Proof.
  induction l as [|[key c] l IH]; simpl; [discriminate|].
  destruct (config.venue_matches venue_name key c) eqn:E.
  - intros [= <-]. exists key. split; [now left|now apply venue_matches_iff].
  - intros Hf. destruct (IH Hf) as [k [Hin Hm]]. exists k. split; [now right|assumption].
Qed.

Lemma configured_patterns_nonempty (key : string) (cfg : config.VenueConfig) :
  In (key, cfg) config.VENUE_MAPPINGS -> config.patterns cfg <> [].
Proof.
  unfold config.VENUE_MAPPINGS.
  intros [E|[E|[E|[E|[]]]]]; inversion E; subst; simpl; discriminate.
Qed.

Lemma candidates_nonempty (venue_name : string) (year : Z) :
  config.get_venue_id_candidates venue_name year <> [].
Proof.
  unfold config.get_venue_id_candidates.
  destruct (config.find_venue venue_name config.VENUE_MAPPINGS) as [cfg|] eqn:E;
    [|discriminate].
  destruct (find_venue_some _ _ _ E) as [key [Hin _]].
  apply configured_patterns_nonempty in Hin.
  destruct (config.patterns cfg); [contradiction|discriminate].
Qed.


(** C8, as stated, fails: a name with blanks around it is, up to case, neither
    a canonical key nor an alias, and yet it resolves to the patterns of a
    configured venue. *)
Lemma padded_name_is_resolved :
  (forall key cfg, In (key, cfg) config.VENUE_MAPPINGS ->
     names_venue " iclr " key cfg = false)
  /\ config.get_venue_id_candidates " iclr " 2024 = ["ICLR.cc/2024/Conference"]
  /\ config.get_venue_id_candidates " iclr " 2024 <> [" iclr "].
Proof.
  split; [|split; [reflexivity|discriminate]].
  unfold config.VENUE_MAPPINGS.
  intros key cfg [E|[E|[E|[E|[]]]]]; inversion E; subst; reflexivity.
Qed.

(** C8, amended. A name that the resolver's comparison matches with no
    configuration (its upper-cased form, blanks around it removed, is no
    upper-cased key and its lower-cased form is no lower-cased alias) resolves
    to the list that holds the name itself; and whatever the name and the
    year, the resolver returns at least one candidate. *)
Theorem unknown_venue_is_literal (venue_name : string) (year : Z)
    (Hno : forall key cfg, In (key, cfg) config.VENUE_MAPPINGS ->
                           ~ resolver_match venue_name key cfg) :
  config.get_venue_id_candidates venue_name year = [venue_name]
  /\ (forall (name : string) (y : Z), config.get_venue_id_candidates name y <> []).
Proof.
  split; [|apply candidates_nonempty].
  unfold config.get_venue_id_candidates.
  now rewrite (find_venue_none _ _ Hno).
Qed.

(** The amended C8 at the name "SomeUnknownVenue" and the year 2024. *)
Lemma unknown_venue_is_literal_witness :
  config.get_venue_id_candidates "SomeUnknownVenue" 2024 = ["SomeUnknownVenue"]
  /\ (forall (name : string) (y : Z), config.get_venue_id_candidates name y <> []).
Proof.
  apply (unknown_venue_is_literal "SomeUnknownVenue" 2024).
  unfold config.VENUE_MAPPINGS.
  intros key cfg [E|[E|[E|[E|[]]]]]; inversion E; subst;
    (intros [Hm|Hm]; [discriminate Hm|]); simpl in Hm;
    repeat (destruct Hm as [Hm|Hm]; [discriminate Hm|]); exact Hm.
Defined.

End Resolver.

(** ** Characters and strings *)

Section Strings.






Lemma rstrip_cons_nonspace (c : ascii) (s : string) :
  is_space c = false -> rstrip (String c s) = String c (rstrip s).
Proof.
  intros Hc. simpl. destruct (rstrip s); [now rewrite Hc|reflexivity].
Qed.


End Strings.

(** ** The search pattern *)

Section SearchPattern.













End SearchPattern.

(** ** Score parser *)

Section ScoreParser.
Context {py : Builtins}.








Lemma first_literal_has_digit (s : string) (neg : bool) (ds : string)
    (fr : option string) :
  first_literal s neg ds fr -> has_digit s = true.
Proof.
  intros [pre [post [Es [Hne [Hd _]]]]]. subst s.
  assert (Happ : forall a b, has_digit (a ++ b) = has_digit a || has_digit b).
  { intros a b. induction a as [|x a IH]; [reflexivity|].
    simpl. now rewrite IH, orb_assoc. }
  rewrite Happ. unfold literal. rewrite !Happ.
  destruct ds as [|d ds]; [contradiction|].
  cbn in Hd. apply andb_true_iff in Hd. destruct Hd as [Hc _].
  simpl. rewrite Hc. simpl. now rewrite !orb_true_r.
Qed.


End ScoreParser.

Section ScoreParserClaims.
Context {py : Builtins}.




End ScoreParserClaims.


(** ** Review aggregator *)

Section Aggregator.
Context {py : Builtins}.














End Aggregator.

Section AggregatorClaims.
Context {py : Builtins}.







End AggregatorClaims.





(** ** The monad *)

Section Monad.
Context {N : Type}.

Lemma bind_ret_inv {A B} (m : M N A) (k : A -> M N B) (w w' : World N) (b : B) :
  bind m k w = (Ret b, w') ->
  exists a w1, m w = (Ret a, w1) /\ k a w1 = (Ret b, w').
Proof.
  unfold bind. destruct (m w) as [[a|e] w1]; [|discriminate].
  intros Hk. now exists a, w1.
Qed.

Lemma bind_ret_eq {A B} (m : M N A) (k : A -> M N B) (w w1 : World N) (a : A) :
  m w = (Ret a, w1) -> bind m k w = k a w1.
Proof. unfold bind. now intros ->. Qed.

Lemma pure_inv {A} (r : result A) (w w' : World N) (a : A) :
  pure r w = (Ret a, w') -> r = Ret a /\ w' = w.
Proof. unfold pure. now intros [= -> ->]. Qed.

Lemma catch_returns {A} (m : M N A) (h : exn -> M N A) (w : World N) :
  (forall e w1, exists a w2, h e w1 = (Ret a, w2)) ->
  exists a w', catch m h w = (Ret a, w').
Proof.
  intros Hh. unfold catch. destruct (m w) as [[a|e] w1].
  - now exists a, w1.
  - apply Hh.
Qed.



End Monad.

(** ** Web-scrape fallback *)

Section WebScraper.
Context {N : Type} {R : Remote N}.




Lemma fetch_aaai_cases (year : string) (w : World N) :
  exists papers w',
    fetch_aaai_from_github year w = (Ret papers, w')
    /\ (papers = []
        \/ exists response n' data items,
             requests_get (aaai_url year) 30 (net w) = (Ret response, n')
             /\ status_code response <> 404
             /\ raise_for_status response = Ret tt
             /\ json response = Ret data
             /\ iterate data = Ret items
             /\ rmap_list (aaai_note year) items = Ret papers).
Proof.
  unfold fetch_aaai_from_github, catch, bind, call, pure, ret, aaai_url.
  destruct (requests_get _ 30 (net w)) as [[response|e] n'] eqn:Hget.
  2:{ eexists _, _. split; [reflexivity|now left]. }
  destruct (Z.eqb_spec (status_code response) 404) as [E|E].
  { eexists _, _. split; [reflexivity|now left]. }
  destruct (raise_for_status response) as [[]|e] eqn:Hst.
  2:{ eexists _, _. split; [reflexivity|now left]. }
  destruct (json response) as [data|e] eqn:Hj.
  2:{ eexists _, _. split; [reflexivity|now left]. }
  destruct (iterate data) as [items|e] eqn:Hi.
  2:{ eexists _, _. split; [reflexivity|now left]. }
  destruct (rmap_list (aaai_note year) items) as [notes|e] eqn:Hn.
  2:{ eexists _, _. split; [reflexivity|now left]. }
  eexists _, _. split; [reflexivity|]. right.
  exists response, n', data, items. repeat split; assumption.
Qed.

Lemma scrape_venue_returns (venue_id : string) (w : World N) :
  exists papers w', scrape_venue venue_id w = (Ret papers, w').
Proof.
  unfold scrape_venue.
  destruct (contains "AAAI" venue_id); [|now exists [], w].
  destruct (search_year venue_id) as [year|]; [|now exists [], w].
  destruct (fetch_aaai_cases year w) as [papers [w' [H _]]]. now exists papers, w'.
Qed.


End WebScraper.


(** ** Remote fetch client *)

Section Fetch.
Context {N : Type} {R : Remote N} {py : Builtins}.











(** Once a client exists the [try] block turns every exception into a pair;
    the web path returns a pair always. *)
Lemma fetch_returns_once_client_exists (venue_id : string) (w : World N) :
  is_web_venue venue_id = true
  \/ (exists c w1, create_client w = (Ret c, w1)) ->
  exists papers status w',
    fetch_submissions_with_reviews venue_id w = (Ret (papers, status), w').
Proof.
  unfold fetch_submissions_with_reviews.
  destruct (is_web_venue venue_id) eqn:Hweb.
  - intros _.
    destruct (scrape_venue_returns venue_id w) as [papers [w' Hs]].
    exists papers, "", w'. unfold bind. now rewrite Hs.
  - intros [Hw|[c [w1 Hc]]]; [discriminate|].
    unfold bind at 1. rewrite Hc.
    destruct (catch_returns (fetch_notes_and_build c venue_id)
                (fun e => ret ([], "Error: " ++ exn_str e)) w1)
      as [[papers status] [w' Hf]].
    { intros e w2. eexists _, _. reflexivity. }
    now exists papers, status, w'.
Qed.

(** C1, on the code. When the client cache is empty and neither constructor
    can build a client, the exception of the second constructor leaves
    [fetch_submissions_with_reviews]: [create_client] runs before the [try]
    block. *)
Theorem fetch_raises_without_client (venue_id : string) (w : World N)
    (e1 e2 : exn) (n1 n2 : N)
    (Hweb : is_web_venue venue_id = false)
    (Hcache : client_cache w = None)
    (Hnew : OpenReviewClient "https://api2.openreview.net" (net w) = (Raise e1, n1))
    (Hold : Client "https://api.openreview.net" n1 = (Raise e2, n2)) :
  fetch_submissions_with_reviews venue_id w
  = (Raise e2, {| client_cache := None; net := n2 |}).
Proof.
  unfold fetch_submissions_with_reviews. rewrite Hweb.
  unfold bind at 1. unfold create_client. rewrite Hcache.
  unfold catch, bind, call. rewrite Hnew, Hcache. cbn [net]. now rewrite Hold.
Qed.





End Fetch.

(** C1 at a world in which no client can be built. *)
Lemma fetch_raises_without_client_witness :
  fetch_submissions_with_reviews (R := samples.offline) (py := samples.sample_builtins)
    "ICLR.cc/2024/Conference" samples.fresh
  = (Raise samples.connection_error,
     {| client_cache := None; net := ["new api2 client"; "new api client"] |}).
Proof.
  apply (@fetch_raises_without_client _ samples.offline samples.sample_builtins
           "ICLR.cc/2024/Conference" samples.fresh
           samples.connection_error samples.connection_error
           ["new api2 client"] ["new api2 client"; "new api client"]);
    reflexivity.
Defined.




(** * Further properties *)

Import spec_more.

Tactic Notation "step_as" ident(x) ident(E) :=
  match goal with
  | |- rbind ?r _ = Ret _ -> _ =>
      destruct r as [x|] eqn:E; [cbn [rbind]|discriminate]
  end.

(** ** Retries and the client handle *)

Section Retry.
Context {N : Type} {R : Remote N}.

Lemma retry_loop_failure {A} (func : M N A) (max_retries base_delay : Z)
    (left : nat) (attempt : Z) (last : option exn) (w w' : World N) (e : exn) :
  retry_loop func max_retries base_delay left attempt last w = (Raise e, w') ->
  exists msg, e = OpenReviewClientError msg.
Proof.
  revert attempt last w. induction left as [|left IH]; intros attempt last w.
  - cbn [retry_loop]. unfold raise. intros [= <- _]. eexists. reflexivity.
  - cbn [retry_loop]. destruct (func w) as [[a|e0] w0]; [discriminate|].
    apply IH.
Qed.

(** X1. A call under [retry_with_backoff] is attempted at most three times,
    with a pause of 2 seconds after the first failure and of 4 seconds after
    the second, and none after the third.  The first attempt that returns
    gives the result, and nothing is attempted after it; after three failures
    the error names the number of attempts and the last failure. *)
Theorem retry_schedule {A} (func : M N A) (w : World N) :
  (forall a w1,
     func w = (Ret a, w1) ->
     retry_with_backoff func w = (Ret a, w1))
  /\ (forall e1 w1 a w2,
        func w = (Raise e1, w1) ->
        func (after_sleep 2 w1) = (Ret a, w2) ->
        retry_with_backoff func w = (Ret a, w2))
  /\ (forall e1 w1 e2 w2 a w3,
        func w = (Raise e1, w1) ->
        func (after_sleep 2 w1) = (Raise e2, w2) ->
        func (after_sleep 4 w2) = (Ret a, w3) ->
        retry_with_backoff func w = (Ret a, w3))
  /\ (forall e1 w1 e2 w2 e3 w3,
        func w = (Raise e1, w1) ->
        func (after_sleep 2 w1) = (Raise e2, w2) ->
        func (after_sleep 4 w2) = (Raise e3, w3) ->
        retry_with_backoff func w = (Raise (gave_up e3), w3)).
Proof.
  unfold retry_with_backoff, config.API_RETRY_MAX, config.API_RETRY_DELAY_BASE.
  cbn [retry_loop].
  split; [|split; [|split]].
  - intros a w1 H1. now rewrite H1.
  - intros e1 w1 a w2 H1 H2. rewrite H1.
    change (Z.ltb 0 (Z.of_nat 3 - 1)) with true; cbv iota.
    change (2 * 2 ^ 0) with 2. fold (after_sleep 2 w1). now rewrite H2.
  - intros e1 w1 e2 w2 a w3 H1 H2 H3. rewrite H1.
    change (Z.ltb 0 (Z.of_nat 3 - 1)) with true; cbv iota.
    change (2 * 2 ^ 0) with 2. fold (after_sleep 2 w1). rewrite H2.
    change (Z.ltb (0 + 1) (Z.of_nat 3 - 1)) with true; cbv iota.
    change (2 * 2 ^ (0 + 1)) with 4. fold (after_sleep 4 w2). now rewrite H3.
  - intros e1 w1 e2 w2 e3 w3 H1 H2 H3. rewrite H1.
    change (Z.ltb 0 (Z.of_nat 3 - 1)) with true; cbv iota.
    change (2 * 2 ^ 0) with 2. fold (after_sleep 2 w1). rewrite H2.
    change (Z.ltb (0 + 1) (Z.of_nat 3 - 1)) with true; cbv iota.
    change (2 * 2 ^ (0 + 1)) with 4. fold (after_sleep 4 w2). rewrite H3.
    reflexivity.
Qed.

(** X2. [retry_with_backoff] raises nothing but [OpenReviewClientError],
    whatever the wrapped call raises, and it raises only after the call has
    failed three times in a row; its message carries the last failure. *)
Theorem retry_raises_client_error {A} (func : M N A) (w w' : World N) (e : exn)
    (Hfail : retry_with_backoff func w = (Raise e, w')) :
  exists e1 w1 e2 w2 e3,
    func w = (Raise e1, w1)
    /\ func (after_sleep 2 w1) = (Raise e2, w2)
    /\ func (after_sleep 4 w2) = (Raise e3, w')
    /\ e = gave_up e3.
Proof.
  unfold retry_with_backoff, config.API_RETRY_MAX, config.API_RETRY_DELAY_BASE
    in Hfail.
  cbn [retry_loop] in Hfail.
  destruct (func w) as [[a|e1] w1] eqn:H1; [discriminate|].
  change (Z.ltb 0 (Z.of_nat 3 - 1)) with true in Hfail; cbv iota in Hfail.
  change (2 * 2 ^ 0) with 2 in Hfail. fold (after_sleep 2 w1) in Hfail.
  destruct (func (after_sleep 2 w1)) as [[a|e2] w2] eqn:H2; [discriminate|].
  change (Z.ltb (0 + 1) (Z.of_nat 3 - 1)) with true in Hfail; cbv iota in Hfail.
  change (2 * 2 ^ (0 + 1)) with 4 in Hfail. fold (after_sleep 4 w2) in Hfail.
  destruct (func (after_sleep 4 w2)) as [[a|e3] w3] eqn:H3; [discriminate|].
  injection Hfail as <- <-.
  exists e1, w1, e2, w2, e3. repeat split; assumption.
Qed.

(** X3. [create_client] builds a client once: when it returns a client, the
    client is in the cache, and any later call returns the same client and
    leaves the world as it is, so nothing is asked of the network.  When it
    raises, the cache was empty and stays empty. *)
Theorem create_client_caches (w w1 : World N) :
  (forall c,
     create_client w = (Ret c, w1) ->
     client_cache w1 = Some c /\ create_client w1 = (Ret c, w1))
  /\ (forall e,
        create_client w = (Raise e, w1) ->
        client_cache w = None /\ client_cache w1 = None).
Proof.
  unfold create_client at 1 3. destruct (client_cache w) as [c0|] eqn:Hc.
  - split.
    + intros c [= <- <-]. split; [exact Hc|].
      unfold create_client. now rewrite Hc.
    + intros e H. discriminate.
  - unfold catch, bind, call.
    destruct (OpenReviewClient "https://api2.openreview.net" (net w))
      as [[c1|e1] n1]; cbn [net client_cache].
    + split; [|intros e H; discriminate].
      intros c [= <- <-]. split; [reflexivity|]. reflexivity.
    + destruct (Client "https://api.openreview.net" n1) as [[c2|e2] n2];
        cbn [net client_cache].
      * split; [|intros e H; discriminate].
        intros c [= <- <-]. split; reflexivity.
      * split; [intros c H; discriminate|].
        intros e [= _ <-]. split; [reflexivity|exact Hc].
Qed.

End Retry.

(** ** The fetch paths *)

Section FetchMore.
Context {N : Type} {R : Remote N} {py : Builtins}.

Lemma bind_raise_eq {A B} (m : M N A) (k : A -> M N B) (w w1 : World N) (e : exn) :
  m w = (Raise e, w1) -> bind m k w = (Raise e, w1).
Proof. unfold bind. now intros ->. Qed.

Lemma count_reviewed_bounds (papers : list dict) (k : Z) :
  count_reviewed papers = Ret k -> 0 <= k <= len papers.
Proof.
  unfold len. revert k. induction papers as [|p papers IH]; intros k.
  - intros [= <-]. simpl. lia.
  - cbn [count_reviewed]. destruct (has_scored_review p) as [b|e]; [|discriminate].
    cbn [rbind]. destruct (count_reviewed papers) as [n|e]; [|discriminate].
    cbn [rbind]. intros Hk. specialize (IH n eq_refl).
    assert (E : k = if b then 1 + n else n) by congruence. subst k.
    cbn [List.length]. rewrite Nat2Z.inj_succ. destruct b; lia.
Qed.

(** X4. When the request for the [Submission] invitation fails (after its
    retries), [fetch_submissions_with_reviews] returns the empty list with the
    error as status and asks nothing more: the other invitations and the
    previous API are not tried. *)
Theorem failed_first_request_ends_fetch (venue_id : string) (w w1 w2 : World N)
    (c : client) (e : exn)
    (Hweb : is_web_venue venue_id = false)
    (Hclient : create_client w = (Ret c, w1))
    (Hsub : retry_with_backoff
              (call (get_all_notes c (venue_id ++ "/-/Submission"))) w1
            = (Raise e, w2)) :
  fetch_submissions_with_reviews venue_id w
  = (Ret ([], "Error: " ++ exn_str e), w2).
Proof.
  unfold fetch_submissions_with_reviews. rewrite Hweb.
  rewrite (bind_ret_eq _ _ _ _ _ Hclient).
  unfold catch, fetch_notes_and_build.
  now rewrite (bind_raise_eq _ _ _ _ _ Hsub).
Qed.

(** X5. With a client at hand, [fetch_submissions_with_reviews] on an
    API-backed identifier returns either the empty list with a status that
    starts with [Error: ], or papers with the status
    [Fetched n papers (k with reviews)], where [n] is the number of papers
    returned and [k], between 0 and [n], the number of them with a scored
    review. *)
Theorem fetch_status_line (venue_id : string) (w w1 : World N) (c : client)
    (Hweb : is_web_venue venue_id = false)
    (Hclient : create_client w = (Ret c, w1)) :
  exists papers status w',
    fetch_submissions_with_reviews venue_id w = (Ret (papers, status), w')
    /\ ((papers = [] /\ exists e, status = "Error: " ++ exn_str e)
        \/ (exists k,
              status = fetched_status (len papers) k
              /\ count_reviewed papers = Ret k
              /\ 0 <= k <= len papers)).
Proof.
  unfold fetch_submissions_with_reviews. rewrite Hweb.
  rewrite (bind_ret_eq _ _ _ _ _ Hclient). unfold catch.
  destruct (fetch_notes_and_build c venue_id w1) as [[[ps st]|e] w2] eqn:Hb.
  - exists ps, st, w2. split; [reflexivity|]. right.
    unfold fetch_notes_and_build in Hb.
    apply bind_ret_inv in Hb. destruct Hb as [notes0 [wa [_ Hb]]].
    apply bind_ret_inv in Hb. destruct Hb as [notes1 [wb [_ Hb]]].
    apply bind_ret_inv in Hb. destruct Hb as [notes2 [wc [_ Hb]]].
    apply bind_ret_inv in Hb. destruct Hb as [papers0 [wd [_ Hb]]].
    apply bind_ret_inv in Hb. destruct Hb as [k [we [Hk Hb]]].
    apply pure_inv in Hk. destruct Hk as [Hk _].
    injection Hb as <- <- _.
    exists k. split; [reflexivity|]. split; [exact Hk|].
    now apply count_reviewed_bounds.
  - exists [], ("Error: " ++ exn_str e), w2. split; [reflexivity|]. left.
    split; [reflexivity|]. now exists e.
Qed.



Lemma is_web_venue_contains (venue_id : string) :
  is_web_venue venue_id = contains "AAAI" venue_id.
Proof.
  unfold is_web_venue, config.VENUE_MAPPINGS. cbn [existsb config.source snd fst].
  change (String.eqb "web" "web") with true.
  now destruct (contains "AAAI" venue_id).
Qed.

Lemma fetch_aaai_keeps_cache (year : string) (w w' : World N)
    (r : result (list dict)) :
  fetch_aaai_from_github year w = (r, w') -> client_cache w' = client_cache w.
Proof.
  unfold fetch_aaai_from_github, catch, bind, call, pure, ret.
  destruct (requests_get _ 30 (net w)) as [[response|e] n'].
  2:{ now intros [= _ <-]. }
  destruct (Z.eqb (status_code response) 404); [now intros [= _ <-]|].
  destruct (raise_for_status response) as [[]|e]; [|now intros [= _ <-]].
  destruct (json response) as [data|e]; [|now intros [= _ <-]].
  destruct (iterate data) as [items|e]; [|now intros [= _ <-]].
  destruct (rmap_list (aaai_note year) items) as [notes|e]; now intros [= _ <-].
Qed.

(** X7. An identifier that contains [AAAI] goes to the web scraper and to
    nothing else: the fetch returns a list with the empty status, makes no
    client and leaves the client cache as it is; when the identifier has no
    year of the form 20dd, the list is empty and the network is not touched. *)
Theorem web_venues_bypass_openreview (venue_id : string) (w : World N)
    (Hweb : contains "AAAI" venue_id = true) :
  exists papers w',
    fetch_submissions_with_reviews venue_id w = (Ret (papers, ""), w')
    /\ client_cache w' = client_cache w
    /\ (search_year venue_id = None -> papers = [] /\ w' = w).
Proof.
  unfold fetch_submissions_with_reviews.
  rewrite is_web_venue_contains, Hweb.
  unfold scrape_venue. rewrite Hweb.
  destruct (search_year venue_id) as [year|].
  - destruct (fetch_aaai_from_github year w) as [[papers|e] w'] eqn:Hf.
    + exists papers, w'. unfold bind. rewrite Hf.
      split; [reflexivity|]. split; [|discriminate].
      exact (fetch_aaai_keeps_cache _ _ _ _ Hf).
    + exfalso. destruct (fetch_aaai_cases year w) as [ps [w'' [H _]]].
      rewrite Hf in H. discriminate.
  - exists [], w. split; [reflexivity|]. split; [reflexivity|]. now intros _.
Qed.





End FetchMore.

(** ** The statistics of a paper *)

Section Statistics.
Context {py : Builtins}.












End Statistics.

(** ** The fetch without reviews *)

Section SubmissionsOnly.
Context {N : Type} {R : Remote N} {S : RemoteSubmissions N} {py : Builtins}.

Lemma submission_pdf (v1 v2 v3 v4 v5 v6 v7 v8 v9 u : pyval) :
  get
    (dict_set
       (dict_of_items
          [ ("id", v1); ("forum", v2); ("title", v3); ("abstract", v4);
            ("authors", v5); ("keywords", v6); ("tldr", v7);
            ("pdf", v8); ("venue_id", v9) ])
       "openreview_url" u)
    "pdf"
  = v8.
Proof. vm_compute. reflexivity. Qed.



Lemma note_to_submission_returns (venue_id : string) (note : Note) :
  content_ok note = true -> exists s, note_to_submission venue_id note = Ret s.
Proof.
  unfold content_ok, note_to_submission. intros Hc.
  destruct (content note) as [v|].
  - destruct v as [| | | | | |c]; try discriminate Hc. cbn [as_dict rbind]. cbv zeta.
    rewrite !submission_pdf. unfold get_val, py_or.
    destruct (unwrap_value (get c "pdf")) as [|b|k|x|s|l|d];
      cbv beta iota in Hc.
    5:{ destruct (truthy (PStr s)) eqn:Hs.
        - rewrite Hs. cbn [as_str rbind].
          destruct (negb (startswith s "http")); eexists; reflexivity.
        - change (truthy (PStr "")) with false. cbv iota. eexists. reflexivity. }
    all: apply negb_true_iff in Hc; rewrite Hc;
      change (truthy (PStr "")) with false; cbv iota; eexists; reflexivity.
  - cbn [as_dict rbind]. cbv zeta. rewrite !submission_pdf.
    change (truthy (py_or (get_val [] "pdf") (PStr ""))) with false. cbv iota.
    eexists. reflexivity.
Qed.

Lemma notes_to_submissions_return (venue_id : string) (notes : list Note) :
  Forall (fun n => content_ok n = true) notes ->
  exists subs,
    rmap_list (note_to_submission venue_id) notes = Ret subs
    /\ len subs = len notes.
Proof.
  induction 1 as [|n notes Hn _ [subs [IH Hlen]]].
  - exists []. now split.
  - destruct (note_to_submission_returns venue_id n Hn) as [s Hs].
    exists (s :: subs). cbn [rmap_list]. rewrite Hs. cbn [rbind]. rewrite IH.
    split; [reflexivity|]. unfold len in *. cbn [List.length]. lia.
Qed.

(** X12. The fetch without reviews goes on when the request for the
    [Submission] invitation fails: it asks for [Blind_Submission], and the
    records found there become the submissions, under the status
    [Fetched n submissions].  (The fetch with reviews ends with an error in
    the same situation.) *)
Theorem cached_fetch_survives_failed_request (venue_id : string)
    (w w1 w2 w3 : World N) (c : client) (e : exn) (n : Note) (ns : list Note)
    (Hclient : create_client w = (Ret c, w1))
    (Hsub : retry_with_backoff
              (call (get_all_submissions c (venue_id ++ "/-/Submission"))) w1
            = (Raise e, w2))
    (Hblind : retry_with_backoff
                (call (get_all_submissions c (venue_id ++ "/-/Blind_Submission"))) w2
              = (Ret (n :: ns), w3))
    (Hok : Forall (fun x => content_ok x = true) (n :: ns)) :
  exists subs,
    rmap_list (note_to_submission venue_id) (n :: ns) = Ret subs
    /\ len subs = len (n :: ns)
    /\ fetch_submissions_cached venue_id w
       = (Ret (subs, "Fetched " ++ str_of_int (len (n :: ns)) ++ " submissions"), w3).
Proof.
  destruct (notes_to_submissions_return venue_id _ Hok) as [subs [Hsubs Hlen]].
  exists subs. split; [exact Hsubs|]. split; [exact Hlen|].
  unfold fetch_submissions_cached.
  rewrite (bind_ret_eq _ _ _ _ _ Hclient). unfold catch at 1.
  assert (H1 : catch (retry_with_backoff
                        (call (get_all_submissions c (venue_id ++ "/-/Submission"))))
                     (fun _ => ret []) w1 = (Ret [], w2)).
  { unfold catch. now rewrite Hsub. }
  rewrite (bind_ret_eq _ _ _ _ _ H1).
  assert (H2 : try_submission_patterns c
                 [venue_id ++ "/-/Blind_Submission"; venue_id ++ "/-/Paper"] [] w2
               = (Ret (n :: ns), w3)).
  { cbn [try_submission_patterns]. now rewrite Hblind. }
  rewrite (bind_ret_eq _ _ _ _ _ H2).
  unfold bind, pure, ret. rewrite Hsubs, Hlen. reflexivity.
Qed.

End SubmissionsOnly.

(** ** Venues and years *)

Ltac years_listed :=
  repeat match goal with
         | |- context [config.range ?a ?b] =>
             let v := eval vm_compute in (config.range a b) in
             change (config.range a b) with v
         end;
  split; [discriminate|split];
  [ repeat (apply Forall_cons; [lia|]); apply Forall_nil
  | repeat (apply Sorted_cons;
            [|first [apply HdRel_nil | apply HdRel_cons; lia]]);
    apply Sorted_nil ].

Section Venues.
Context {N : Type} {R : Remote N} {py : Builtins}.

Lemma configured_years (key : string) (cfg : config.VenueConfig) :
  In (key, cfg) config.VENUE_MAPPINGS ->
  config.years_available cfg <> []
  /\ Forall (fun y => config.MIN_YEAR <= y <= config.MAX_YEAR)
       (config.years_available cfg)
  /\ Sorted Z.lt (config.years_available cfg).
Proof.
  unfold config.VENUE_MAPPINGS, config.MIN_YEAR, config.MAX_YEAR.
  intros [E|[E|[E|[E|[]]]]]; inversion E; subst;
    cbn [config.years_available]; years_listed.
Qed.

(** X13. Whatever the venue name, [get_venue_years] returns at least one
    year, every year it returns lies between [MIN_YEAR] and [MAX_YEAR], the
    bounds of the year selector, and the years are in increasing order. *)
Theorem venue_years_within_bounds (venue_name : string) :
  config.get_venue_years venue_name <> []
  /\ Forall (fun y => config.MIN_YEAR <= y <= config.MAX_YEAR)
       (config.get_venue_years venue_name)
  /\ Sorted Z.lt (config.get_venue_years venue_name).
Proof.
  unfold config.get_venue_years.
  destruct (config.find_venue venue_name config.VENUE_MAPPINGS) as [cfg|] eqn:E.
  - destruct (find_venue_some _ _ _ E) as [key [Hin _]].
    exact (configured_years key cfg Hin).
  - unfold config.MIN_YEAR, config.MAX_YEAR.
    change (2026 + 1) with 2027. years_listed.
Qed.

Lemma configured_pattern_forms (key : string) (cfg : config.VenueConfig)
    (year c : string) :
  In (key, cfg) config.VENUE_MAPPINGS ->
  In c (map (fun p => config.format_year p year) (config.patterns cfg)) ->
  exists org, In org VENUE_ORGS /\ c = org ++ year ++ "/Conference".
Proof.
  unfold config.VENUE_MAPPINGS, VENUE_ORGS.
  intros [E|[E|[E|[E|[]]]]]; inversion E; subst; cbn [config.patterns map In];
    intros Hc;
    repeat (destruct Hc as [<-|Hc];
            [first [ exists "ICLR.cc/"; split; [cbn [In]; tauto|reflexivity]
                   | exists "NeurIPS.cc/"; split; [cbn [In]; tauto|reflexivity]
                   | exists "NIPS.cc/"; split; [cbn [In]; tauto|reflexivity]
                   | exists "ICML.cc/"; split; [cbn [In]; tauto|reflexivity]
                   | exists "AAAI.org/"; split; [cbn [In]; tauto|reflexivity] ]|]);
    contradiction.
Qed.

(** X14. Every candidate the resolver returns is the given name itself or a
    configured organisation followed by the year in decimal and
    [/Conference]: no placeholder is left in a candidate. *)
Theorem candidate_forms (venue_name : string) (year : Z) (c : string)
    (Hin : In c (config.get_venue_id_candidates venue_name year)) :
  c = venue_name
  \/ exists org, In org VENUE_ORGS /\ c = org ++ str_of_int year ++ "/Conference".
Proof.
  unfold config.get_venue_id_candidates in Hin.
  destruct (config.find_venue venue_name config.VENUE_MAPPINGS) as [cfg|] eqn:E.
  - right. destruct (find_venue_some _ _ _ E) as [key [Hkey _]].
    exact (configured_pattern_forms key cfg _ c Hkey Hin).
  - left. destruct Hin as [<-|[]]. reflexivity.
Qed.

Lemma years_survive : forallb year_survives (config.range 2000 2100) = true.
Proof. vm_compute. reflexivity. Qed.

Lemma year_survives_in_century (year : Z) :
  2000 <= year <= 2099 ->
  search_year (aaai_venue_id year) = Some (str_of_int year)
  /\ py_int (str_of_int year) = Ret year.
Proof.
  intros Hy.
  assert (Hin : In year (config.range 2000 2100)).
  { unfold config.range. apply in_map_iff. exists (Z.to_nat (year - 2000)).
    split; [lia|]. apply in_seq. lia. }
  pose proof (proj1 (forallb_forall _ _) years_survive year Hin) as H.
  unfold year_survives in H. apply andb_true_iff in H. destruct H as [H1 H2].
  destruct (search_year (aaai_venue_id year)) as [s|]; [|discriminate].
  destruct (py_int (str_of_int year)) as [n|]; [|discriminate].
  apply String.eqb_eq in H1. apply Z.eqb_eq in H2. now subst.
Qed.

Lemma web_note_venue
    (v1 v2 v3 v4 v5 v6 v7 v8 v9 v10 v11 v12 v13 v14 v15 v16 : pyval) :
  get (dict_of_items
         [ ("id", v1); ("forum", v2); ("title", v3); ("abstract", v4);
           ("authors", v5); ("keywords", v6); ("tldr", v7); ("pdf", v8);
           ("venue", v9); ("venue_id", v10); ("year", v11); ("avg_score", v12);
           ("max_score", v13); ("min_score", v14);
           ("scored_review_count", v15); ("score_distribution", v16) ])
      "venue_id" = v10
  /\ get (dict_of_items
            [ ("id", v1); ("forum", v2); ("title", v3); ("abstract", v4);
              ("authors", v5); ("keywords", v6); ("tldr", v7); ("pdf", v8);
              ("venue", v9); ("venue_id", v10); ("year", v11); ("avg_score", v12);
              ("max_score", v13); ("min_score", v14);
              ("scored_review_count", v15); ("score_distribution", v16) ])
         "year" = v11.
Proof. vm_compute. split; reflexivity. Qed.

Lemma aaai_note_venue (year : string) (item : pyval) (note : dict) :
  aaai_note year item = Ret note ->
  exists y,
    py_int year = Ret y
    /\ get note "venue_id" = PStr ("AAAI.org/" ++ year ++ "/Conference")
    /\ get note "year" = PInt y.
Proof.
  unfold aaai_note. destruct item; try discriminate. cbn [as_dict rbind].
  destruct (split_authors _) as [authors|e]; [|discriminate]. cbn [rbind].
  destruct (py_int year) as [y|e]; [|discriminate]. cbn [rbind].
  intros [= <-]. exists y. split; [reflexivity|]. apply web_note_venue.
Qed.

Lemma aaai_notes_venue (year : string) (items : list pyval) (papers : list dict) :
  rmap_list (aaai_note year) items = Ret papers ->
  Forall (fun p => exists y,
            py_int year = Ret y
            /\ get p "venue_id" = PStr ("AAAI.org/" ++ year ++ "/Conference")
            /\ get p "year" = PInt y) papers.
Proof.
  revert papers. induction items as [|item items IH]; intros papers.
  - intros [= <-]. constructor.
  - cbn [rmap_list]. destruct (aaai_note year item) as [note|] eqn:En;
      [|discriminate].
    cbn [rbind]. destruct (rmap_list (aaai_note year) items) as [rest|];
      [|discriminate].
    cbn [rbind]. intros [= <-]. constructor; [|now apply IH].
    exact (aaai_note_venue _ _ _ En).
Qed.

(** X15. For a year from 2000 to 2099 the resolver and the scraper agree:
    the one candidate of AAAI is [AAAI.org/<year>/Conference], fetching it
    asks the scraper for exactly that year, and every paper that comes back
    carries the candidate as [venue_id] and the year as a number. *)
Theorem aaai_candidate_reaches_scraper (year : Z) (w : World N)
    (Hyear : 2000 <= year <= 2099) :
  config.get_venue_id_candidates "AAAI" year = [aaai_venue_id year]
  /\ exists papers w',
       fetch_aaai_from_github (str_of_int year) w = (Ret papers, w')
       /\ fetch_submissions_with_reviews (aaai_venue_id year) w
          = (Ret (papers, ""), w')
       /\ Forall (fun p => get p "venue_id" = PStr (aaai_venue_id year)
                           /\ get p "year" = PInt year) papers.
Proof.
  destruct (year_survives_in_century year Hyear) as [Hsearch Hint].
  split; [reflexivity|].
  destruct (fetch_aaai_cases (str_of_int year) w) as [papers [w' [Hf Hcases]]].
  exists papers, w'. split; [exact Hf|]. split.
  - unfold fetch_submissions_with_reviews. rewrite is_web_venue_contains.
    change (contains "AAAI" (aaai_venue_id year)) with true. cbv iota.
    unfold scrape_venue.
    change (contains "AAAI" (aaai_venue_id year)) with true. cbv iota.
    rewrite Hsearch. unfold bind. now rewrite Hf.
  - destruct Hcases as [->|[response [n' [data [items [_ [_ [_ [_ [_ Hp]]]]]]]]]];
      [constructor|].
    eapply Forall_impl; [|exact (aaai_notes_venue _ _ _ Hp)].
    intros p [y [Hy [Hv Hn]]]. rewrite Hint in Hy. injection Hy as <-.
    split; [exact Hv|exact Hn].
Qed.

End Venues.

(** ** Sorting *)

Section Sorting.
Variable sort_by : string.

Lemma Qeq_not_below (x y : Q) : Qeq_bool x y = true -> Qltb x y = false.
Proof.
  intros H. apply Qeq_bool_iff in H. unfold Qltb. apply negb_false_iff.
  apply Qle_bool_iff. rewrite H. apply Qle_refl.
Qed.

Lemma sort_key_order (ascending : bool) (p q : dict) :
  sortable sort_by p = true -> sortable sort_by q = true ->
  sortkey_lt (get_sort_key sort_by ascending p) (get_sort_key sort_by ascending q)
  = Ret (ranks_below sort_by p q).
Proof.
  unfold sortable, ranks_below, sort_value, get_sort_key.
  destruct (get p sort_by) as [| |n|x| | |]; try discriminate;
    destruct (get q sort_by) as [| |m|y| | |]; try discriminate; intros _ _;
    destruct ascending; try reflexivity;
    unfold sortkey_lt; cbn [fst snd Z.eqb sortval_eq sortval_lt py_eq py_lt number_of];
    match goal with
    | |- (if Qeq_bool ?a ?b then _ else _) = _ =>
        destruct (Qeq_bool a b) eqn:E;
        [now rewrite (Qeq_not_below _ _ E)|reflexivity]
    end.
Qed.

Lemma ranks_below_asym (p q : dict) :
  ranks_below sort_by p q = true -> ranks_below sort_by q p = false.
Proof.
  unfold ranks_below.
  destruct (sort_value sort_by p) as [x|], (sort_value sort_by q) as [y|];
    try reflexivity; try discriminate.
  unfold Qltb. intros H. apply negb_true_iff in H. apply negb_false_iff.
  apply Qle_bool_iff, Qlt_le_weak, Qnot_le_lt. intros Hle.
  apply Qle_bool_iff in Hle. congruence.
Qed.

Lemma ranks_below_negtrans (p q r : dict) :
  ranks_below sort_by p q = false -> ranks_below sort_by q r = false ->
  ranks_below sort_by p r = false.
Proof.
  unfold ranks_below.
  destruct (sort_value sort_by p) as [x|], (sort_value sort_by q) as [y|],
    (sort_value sort_by r) as [z|]; try reflexivity; try discriminate.
  unfold Qltb. rewrite !negb_false_iff, !Qle_bool_iff.
  intros H1 H2. eapply Qle_trans; eassumption.
Qed.

Lemma in_order_trans (ascending : bool) (p q r : dict) :
  in_order sort_by ascending p q -> in_order sort_by ascending q r ->
  in_order sort_by ascending p r.
Proof.
  unfold in_order. destruct ascending; intros H1 H2.
  - exact (ranks_below_negtrans _ _ _ H2 H1).
  - exact (ranks_below_negtrans _ _ _ H1 H2).
Qed.

Lemma same_rank_not_below (q x y : dict) :
  same_rank sort_by q x = true -> same_rank sort_by q y = true ->
  ranks_below sort_by x y = false /\ ranks_below sort_by y x = false.
Proof.
  unfold same_rank. rewrite !andb_true_iff, !negb_true_iff.
  intros [Hqx Hxq] [Hqy Hyq]. split.
  - exact (ranks_below_negtrans _ _ _ Hxq Hqy).
  - exact (ranks_below_negtrans _ _ _ Hyq Hqx).
Qed.

Lemma insert_keeps_order (ascending : bool) (x : dict) (l : list dict) :
  sortable sort_by x = true ->
  Forall (fun p => sortable sort_by p = true) l ->
  StronglySorted (in_order sort_by ascending) l ->
  exists l',
    insert_by_key (negb ascending) (get_sort_key sort_by ascending x, x)
      (keyed (get_sort_key sort_by ascending) l)
    = Ret (keyed (get_sort_key sort_by ascending) l')
    /\ Permutation (x :: l) l'
    /\ StronglySorted (in_order sort_by ascending) l'
    /\ forall q, filter (same_rank sort_by q) l'
                 = filter (same_rank sort_by q) (x :: l).
Proof.
  intros Hx Hl Hs. unfold keyed. induction l as [|y l IH].
  - exists [x]. split; [reflexivity|]. split; [apply Permutation_refl|].
    split; [repeat constructor|reflexivity].
  - inversion Hl as [|? ? Hy Hl']; subst.
    apply StronglySorted_inv in Hs. destruct Hs as [Hs Hall].
    destruct (IH Hl' Hs) as [l' [Hins [Hperm [Hsorted Hstable]]]].
    cbn [map insert_by_key fst].
    assert (Hafter :
              (if negb ascending
               then sortkey_lt (get_sort_key sort_by ascending x)
                               (get_sort_key sort_by ascending y)
               else sortkey_lt (get_sort_key sort_by ascending y)
                               (get_sort_key sort_by ascending x))
              = Ret (if ascending then ranks_below sort_by y x
                     else ranks_below sort_by x y)).
    { destruct ascending; cbn [negb]; now apply sort_key_order. }
    rewrite Hafter. cbn [rbind].
    destruct (if ascending then ranks_below sort_by y x
              else ranks_below sort_by x y) eqn:Ea.
    + rewrite Hins. cbn [rbind]. exists (y :: l').
      split; [reflexivity|]. split.
      { eapply perm_trans; [apply perm_swap|apply perm_skip; exact Hperm]. }
      split.
      { constructor; [exact Hsorted|].
        eapply Permutation_Forall; [exact Hperm|].
        constructor; [|exact Hall].
        unfold in_order. destruct ascending; now apply ranks_below_asym. }
      intros q. cbn [filter]. rewrite Hstable. cbn [filter].
      destruct (same_rank sort_by q x) eqn:Sx, (same_rank sort_by q y) eqn:Sy;
        try reflexivity.
      destruct (same_rank_not_below _ _ _ Sx Sy) as [Hxy Hyx].
      destruct ascending; congruence.
    + exists (x :: y :: l). split; [reflexivity|].
      split; [apply Permutation_refl|]. split; [|reflexivity].
      assert (Hxy : in_order sort_by ascending x y).
      { unfold in_order. destruct ascending; exact Ea. }
      constructor; [now constructor|].
      constructor; [exact Hxy|].
      eapply Forall_impl; [|exact Hall].
      intros z Hz. exact (in_order_trans _ _ _ _ Hxy Hz).
Qed.

Lemma sort_by_key_spec (ascending : bool) (papers : list dict) :
  Forall (fun p => sortable sort_by p = true) papers ->
  exists out,
    sort_by_key (negb ascending) (keyed (get_sort_key sort_by ascending) papers)
    = Ret (keyed (get_sort_key sort_by ascending) out)
    /\ Permutation papers out
    /\ StronglySorted (in_order sort_by ascending) out
    /\ forall q, filter (same_rank sort_by q) out
                 = filter (same_rank sort_by q) papers.
Proof.
  induction 1 as [|x l Hx Hl [out0 [Hsort [Hperm [Hsorted Hstable]]]]].
  - exists []. split; [reflexivity|]. split; [constructor|].
    split; [constructor|reflexivity].
  - assert (Hout0 : Forall (fun p => sortable sort_by p = true) out0).
    { eapply Permutation_Forall; eassumption. }
    destruct (insert_keeps_order ascending x out0 Hx Hout0 Hsorted)
      as [out [Hins [Hperm' [Hsorted' Hstable']]]].
    exists out. split.
    { unfold keyed at 1. cbn [map sort_by_key]. fold (keyed (get_sort_key sort_by ascending) l).
      rewrite Hsort. cbn [rbind]. exact Hins. }
    split.
    { eapply perm_trans; [apply perm_skip; exact Hperm|exact Hperm']. }
    split; [exact Hsorted'|].
    intros q. rewrite Hstable'. cbn [filter]. now rewrite Hstable.
Qed.

Lemma unkeyed (key : dict -> sortkey) (l : list dict) : map snd (keyed key l) = l.
Proof. unfold keyed. rewrite map_map. cbn [snd]. apply map_id. Qed.

(** X16. On papers that have a number or nothing under the sort field,
    [sort_papers] returns a rearrangement of its input, ordered by that
    number (decreasing unless [ascending]), in which papers with equal keys
    keep their order.  A paper with nothing under the field has the largest
    key: in decreasing order, the order the application uses, the papers
    without a value come first. *)
Theorem sort_papers_order (papers : list dict) (ascending : bool)
    (Hsortable : Forall (fun p => sortable sort_by p = true) papers) :
  exists out,
    sort_papers papers sort_by ascending = Ret out
    /\ Permutation papers out
    /\ StronglySorted (in_order sort_by ascending) out
    /\ (forall q, filter (same_rank sort_by q) out
                  = filter (same_rank sort_by q) papers)
    /\ (ascending = false ->
        forall p, In p papers -> sort_value sort_by p = None ->
        exists first rest,
          out = first :: rest /\ sort_value sort_by first = None).
Proof.
  destruct (sort_by_key_spec ascending papers Hsortable)
    as [out [Hsort [Hperm [Hsorted Hstable]]]].
  exists out. split.
  { unfold sort_papers, sorted.
    fold (keyed (get_sort_key sort_by ascending) papers).
    rewrite Hsort. cbn [rbind]. now rewrite unkeyed. }
  split; [exact Hperm|]. split; [exact Hsorted|]. split; [exact Hstable|].
  intros -> p Hp Hnone.
  assert (Hin : In p out) by (eapply Permutation_in; eassumption).
  destruct out as [|first rest]; [contradiction|].
  exists first, rest. split; [reflexivity|].
  destruct Hin as [->|Hin]; [exact Hnone|].
  apply StronglySorted_inv in Hsorted. destruct Hsorted as [_ Hall].
  rewrite Forall_forall in Hall. specialize (Hall p Hin).
  unfold in_order, ranks_below in Hall. rewrite Hnone in Hall.
  destruct (sort_value sort_by first); [discriminate|reflexivity].
Qed.

End Sorting.

(** ** Keyword and score filters *)

Section Filters.

Lemma match_keywords_weaken (text : pyval) (keywords : list string)
    (logic_and logic : string) (b : bool) :
  upper logic_and = "AND" ->
  match_keywords text keywords logic_and = Ret b ->
  exists b', match_keywords text keywords logic = Ret b' /\ (b = true -> b' = true).
Proof.
  intros Hand. unfold match_keywords.
  destruct keywords as [|kw kws].
  { intros _. exists true. now split. }
  cbn [orb]. destruct (negb (truthy text)).
  { intros _. exists true. now split. }
  destruct (as_str text) as [s|e]; [|discriminate]. cbn [rbind].
  rewrite Hand. change (String.eqb "AND" "AND") with true. cbv iota.
  intros [= <-]. destruct (String.eqb (upper logic) "AND").
  - eexists. split; [reflexivity|]. now intros H.
  - eexists. split; [reflexivity|]. cbn [forallb existsb].
    intros H. apply andb_true_iff in H. destruct H as [-> _]. reflexivity.
Qed.

(** X17. Asking for all keywords is stricter than asking for any: a paper
    that passes [filter_paper_by_keywords] under the logic AND, in whatever
    letter case it is written, passes it under every other logic, for the
    same keywords and the same field scope. *)
Theorem and_is_stricter_than_or (paper : dict) (keywords : list string)
    (field_scope logic_and logic : string)
    (Hand : upper logic_and = "AND")
    (Hpass : filter_paper_by_keywords paper keywords field_scope logic_and
             = Ret true) :
  filter_paper_by_keywords paper keywords field_scope logic = Ret true.
Proof.
  revert Hpass. unfold filter_paper_by_keywords.
  destruct keywords as [|kw kws]; [reflexivity|].
  cbv zeta.
  set (title := py_or (get_default paper "title" (PStr "")) (PStr "")).
  set (abstract := py_or (get_default paper "abstract" (PStr "")) (PStr "")).
  assert (Hw : forall text,
             match_keywords text (kw :: kws) logic_and = Ret true ->
             match_keywords text (kw :: kws) logic = Ret true).
  { intros text H.
    destruct (match_keywords_weaken text _ _ logic _ Hand H) as [b' [Hb' Ht]].
    now rewrite Hb', Ht. }
  destruct (String.eqb field_scope "title"); [apply Hw|].
  destruct (String.eqb field_scope "abstract"); [apply Hw|].
  destruct (String.eqb field_scope "title_or_abstract").
  { destruct (match_keywords title (kw :: kws) logic_and) as [bt|] eqn:Et;
      [|discriminate].
    destruct (match_keywords_weaken title _ _ logic _ Hand Et) as [b' [Hb' Ht]].
    rewrite Hb'. cbn [rbind]. destruct bt.
    - intros _. now rewrite Ht.
    - intros Ha. destruct b'; [reflexivity|now apply Hw]. }
  destruct (String.eqb field_scope "title_and_abstract").
  { destruct (match_keywords title (kw :: kws) logic_and) as [bt|] eqn:Et;
      [|discriminate].
    destruct (match_keywords_weaken title _ _ logic _ Hand Et) as [b' [Hb' Ht]].
    rewrite Hb'. cbn [rbind]. destruct bt; [|discriminate].
    intros Ha. rewrite Ht by reflexivity. now apply Hw. }
  destruct (plus_str title " ") as [t|]; [|discriminate]. cbn [rbind].
  destruct abstract; try discriminate. cbn [rbind]. apply Hw.
Qed.

(** X18. A paper without an abstract (none, or an empty one) passes the
    keyword filter in the scope [abstract] whatever the keywords are, and,
    when its title is a string, in the scope [title_or_abstract] too: the
    search in an empty text counts as a match. *)
Theorem missing_abstract_passes (paper : dict) (keywords : list string)
    (logic : string)
    (Habs : truthy (get_default paper "abstract" (PStr "")) = false) :
  filter_paper_by_keywords paper keywords "abstract" logic = Ret true
  /\ (forall t,
        get_default paper "title" (PStr "") = PStr t ->
        filter_paper_by_keywords paper keywords "title_or_abstract" logic
        = Ret true).
Proof.
  unfold filter_paper_by_keywords.
  destruct keywords as [|kw kws]; [now split|]. cbv zeta.
  assert (Hempty : match_keywords
                     (py_or (get_default paper "abstract" (PStr "")) (PStr ""))
                     (kw :: kws) logic = Ret true).
  { unfold py_or. rewrite Habs. reflexivity. }
  split.
  - change (String.eqb "abstract" "title") with false.
    change (String.eqb "abstract" "abstract") with true. cbv iota. exact Hempty.
  - intros t Ht.
    change (String.eqb "title_or_abstract" "title") with false.
    change (String.eqb "title_or_abstract" "abstract") with false.
    change (String.eqb "title_or_abstract" "title_or_abstract") with true.
    cbv iota. rewrite Ht, Hempty.
    assert (Hstr : exists s, py_or (PStr t) (PStr "") = PStr s).
    { unfold py_or. destruct (truthy (PStr t)); eexists; reflexivity. }
    destruct Hstr as [s ->]. unfold match_keywords at 1.
    destruct (_ || _); [reflexivity|]. cbn [as_str rbind].
    destruct (String.eqb (upper logic) "AND"); cbn [rbind];
      match goal with |- (if ?b then _ else _) = _ => destruct b end;
      reflexivity.
Qed.

Lemma Qle_bool_inject (a b : Z) : Qle_bool (inject_Z a) (inject_Z b) = Z.leb a b.
Proof. unfold Qle_bool. cbn [inject_Z Qnum Qden]. now rewrite !Z.mul_1_r. Qed.

Lemma check_below (v : option Q) (threshold : option Q) (rest : result bool) :
  check threshold (below (opt_float v)) rest
  = if reaches v threshold then rest else Ret false.
Proof.
  destruct threshold as [t|]; [|reflexivity].
  destruct v as [x|]; [|reflexivity].
  cbn [check below opt_float py_lt number_of rbind reaches].
  now destruct (Qle_bool t x).
Qed.

Lemma check_count (n : Z) (threshold : option Z) (rest : result bool) :
  check threshold (fun t => py_lt (PInt n) (PInt t)) rest
  = if enough n threshold then rest else Ret false.
Proof.
  destruct threshold as [t|]; [|reflexivity].
  cbn [check py_lt number_of rbind enough]. rewrite Qle_bool_inject.
  now destruct (Z.leb t n).
Qed.

Lemma score_filter_decides (paper : dict) (avg mx conf : option Q) (n : Z)
    (a m : option Q) (c : option Z) (k : option Q) :
  get paper "avg_score" = opt_float avg ->
  get paper "max_score" = opt_float mx ->
  get_default paper "scored_review_count" (PInt 0) = PInt n ->
  get paper "avg_confidence" = opt_float conf ->
  filter_paper_by_scores paper a m c k
  = Ret (reaches avg a && reaches mx m && enough n c && reaches conf k).
Proof.
  intros Havg Hmx Hn Hconf. unfold filter_paper_by_scores. cbv zeta.
  rewrite Havg, Hmx, Hn, Hconf, !check_below, check_count.
  destruct (reaches avg a), (reaches mx m), (enough n c), (reaches conf k);
    reflexivity.
Qed.

End Filters.

(** ** The filters on fetched papers *)

Section FiltersOnPapers.
Context {py : Builtins}.

Lemma web_note_scores
    (v1 v2 v3 v4 v5 v6 v7 v8 v9 v10 v11 v12 v13 v14 v15 v16 : pyval) :
  get (dict_of_items
         [ ("id", v1); ("forum", v2); ("title", v3); ("abstract", v4);
           ("authors", v5); ("keywords", v6); ("tldr", v7); ("pdf", v8);
           ("venue", v9); ("venue_id", v10); ("year", v11); ("avg_score", v12);
           ("max_score", v13); ("min_score", v14);
           ("scored_review_count", v15); ("score_distribution", v16) ])
      "avg_score" = v12
  /\ get (dict_of_items
            [ ("id", v1); ("forum", v2); ("title", v3); ("abstract", v4);
              ("authors", v5); ("keywords", v6); ("tldr", v7); ("pdf", v8);
              ("venue", v9); ("venue_id", v10); ("year", v11); ("avg_score", v12);
              ("max_score", v13); ("min_score", v14);
              ("scored_review_count", v15); ("score_distribution", v16) ])
         "max_score" = v13
  /\ get_default
       (dict_of_items
          [ ("id", v1); ("forum", v2); ("title", v3); ("abstract", v4);
            ("authors", v5); ("keywords", v6); ("tldr", v7); ("pdf", v8);
            ("venue", v9); ("venue_id", v10); ("year", v11); ("avg_score", v12);
            ("max_score", v13); ("min_score", v14);
            ("scored_review_count", v15); ("score_distribution", v16) ])
       "scored_review_count" (PInt 0) = v15
  /\ get (dict_of_items
            [ ("id", v1); ("forum", v2); ("title", v3); ("abstract", v4);
              ("authors", v5); ("keywords", v6); ("tldr", v7); ("pdf", v8);
              ("venue", v9); ("venue_id", v10); ("year", v11); ("avg_score", v12);
              ("max_score", v13); ("min_score", v14);
              ("scored_review_count", v15); ("score_distribution", v16) ])
         "avg_confidence" = PNone.
Proof. vm_compute. repeat split. Qed.

Lemma aaai_note_scores (year : string) (item : pyval) (note : dict) :
  aaai_note year item = Ret note ->
  get note "avg_score" = opt_float None
  /\ get note "max_score" = opt_float None
  /\ get_default note "scored_review_count" (PInt 0) = PInt 0
  /\ get note "avg_confidence" = opt_float None.
Proof.
  unfold aaai_note. destruct item; try discriminate. cbn [as_dict rbind].
  destruct (split_authors _) as [authors|e]; [|discriminate]. cbn [rbind].
  destruct (py_int year) as [y|e]; [|discriminate]. cbn [rbind].
  intros [= <-]. apply web_note_scores.
Qed.

(** X19. A paper of the web-scrape path has no scores, so every score
    threshold rejects it: it passes [filter_paper_by_scores] only when no
    minimum average, maximum or confidence is set and the minimum number of
    scored reviews, if set, is at most zero; and with [only_reviewed] set
    the loop of [apply_filters] drops it. *)
Theorem web_papers_fail_score_filters (year : string) (item : pyval) (p : dict)
    (a m : option Q) (c : option Z) (k : option Q)
    (Hp : aaai_note year item = Ret p) :
  filter_paper_by_scores p a m c k
  = Ret (is_none a && is_none m && enough 0 c && is_none k)
  /\ (forall filters,
        app.only_reviewed filters = true -> app.keeps filters p = Ret false).
Proof.
  destruct (aaai_note_scores year item p Hp) as [Havg [Hmx [Hn Hconf]]]. split.
  - rewrite (score_filter_decides p None None None 0 a m c k Havg Hmx Hn Hconf).
    now destruct a, m, k.
  - intros filters Honly. unfold app.keeps. rewrite Honly, Hn. reflexivity.
Qed.




End FiltersOnPapers.

(** ** The keyword input *)

Section KeywordInput.

Lemma split_blank_cons (c : ascii) (s : string) :
  split_blank (String c s)
  = if is_space c then split_blank s
    else match s with
         | EmptyString => [String c EmptyString]
         | String c' _ =>
             if is_space c' then String c EmptyString :: split_blank s
             else match split_blank s with
                  | w :: ws => String c w :: ws
                  | [] => [String c EmptyString]
                  end
         end.
Proof. reflexivity. Qed.

Lemma split_blank_pieces (p : ascii -> bool) (s : string) :
  has_char (fun c => p c && negb (is_space c)) s = false ->
  Forall (fun w => w <> "" /\ has_char is_space w = false /\ has_char p w = false)
         (split_blank s).
Proof.
  induction s as [|c s IH]; [constructor|].
  cbn [has_char]. intros H. apply orb_false_iff in H. destruct H as [Hc Hs].
  specialize (IH Hs). rewrite split_blank_cons.
  destruct (is_space c) eqn:Ec; [exact IH|].
  rewrite andb_true_r in Hc.
  assert (Hone : String c "" <> "" /\ has_char is_space (String c "") = false
                 /\ has_char p (String c "") = false).
  { cbn [has_char]. rewrite Ec, Hc. repeat split. discriminate. }
  destruct s as [|c' s']; [now constructor|].
  destruct (is_space c'); [now constructor|].
  destruct (split_blank (String c' s')) as [|w ws]; [now constructor|].
  inversion IH as [|? ? [_ [Hw1 Hw2]] Hws]; subst.
  constructor; [|exact Hws]. cbn [has_char]. rewrite Ec, Hc, Hw1, Hw2.
  repeat split. discriminate.
Qed.

Lemma strip_no_space (w : string) : has_char is_space w = false -> strip w = w.
Proof.
  intros H. unfold strip.
  assert (Hl : lstrip w = w).
  { destruct w as [|c w]; [reflexivity|]. cbn [has_char] in H.
    apply orb_false_iff in H. destruct H as [Hc _]. cbn [lstrip]. now rewrite Hc. }
  rewrite Hl. induction w as [|c w IH]; [reflexivity|].
  cbn [has_char] in H. apply orb_false_iff in H. destruct H as [Hc Hw].
  rewrite (rstrip_cons_nonspace c w Hc). f_equal. apply IH; [exact Hw|].
  destruct w as [|c' w']; [reflexivity|]. cbn [has_char] in Hw.
  apply orb_false_iff in Hw. destruct Hw as [Hc' _]. cbn [lstrip]. now rewrite Hc'.
Qed.

Lemma no_comma_left (s : string) :
  has_char (fun c => is_comma c && negb (is_space c)) (replace_char "," " " s)
  = false.
Proof.
  unfold replace_char. induction s as [|c s IH]; [reflexivity|].
  cbn [smap has_char]. rewrite IH, orb_false_r. unfold is_comma.
  destruct (Ascii.eqb c ",") eqn:E; [reflexivity|]. now rewrite E.
Qed.

(** X21. Every keyword [parse_keywords_input] returns is non-empty and has
    no blank and no comma in it; the keywords are exactly the pieces of the
    input between blanks and commas, so the stripping and the emptiness test
    that follow the split never change anything. *)
Theorem keywords_are_clean (input_str : string) :
  Forall (fun kw => kw <> "" /\ has_char is_space kw = false
                    /\ has_char is_comma kw = false)
         (parse_keywords_input input_str)
  /\ parse_keywords_input input_str
     = split_blank (replace_char "," " " input_str).
Proof.
  assert (Hpieces := split_blank_pieces is_comma _ (no_comma_left input_str)).
  assert (Hsame : parse_keywords_input input_str
                  = split_blank (replace_char "," " " input_str)).
  { unfold parse_keywords_input.
    destruct (String.eqb_spec input_str ""); [now subst|].
    induction Hpieces as [|w ws [Hne [Hsp _]] _ IH]; [reflexivity|].
    cbn [filter]. rewrite (strip_no_space w Hsp).
    destruct (String.eqb_spec w ""); [contradiction|].
    cbn [negb map]. now rewrite (strip_no_space w Hsp), IH. }
  split; [|exact Hsame]. rewrite Hsame. exact Hpieces.
Qed.

End KeywordInput.

(** ** The filter loop of the application *)

Section ApplyFilters.

Lemma keep_all_filter (filters : app.Filters) (papers : list dict) :
  Forall (fun p => exists b, app.keeps filters p = Ret b) papers ->
  app.keep_all filters papers = Ret (filter (kept_by filters) papers).
Proof.
  induction 1 as [|p papers [b Hb] _ IH]; [reflexivity|].
  cbn [app.keep_all filter]. unfold kept_by at 1. rewrite Hb, IH. cbn [rbind].
  now destruct b.
Qed.

(** X22. When the filters return on every paper, and every paper has a
    number or nothing under the sort field, [apply_filters] returns the
    papers its loop keeps, each as often as it was given, rearranged in
    decreasing order of the sort field with the papers without a value
    first; a paper is in the result exactly when it was given and passes the
    filters. *)
Theorem apply_filters_keeps_and_sorts (papers : list dict) (filters : app.Filters)
    (Hreturn : Forall (fun p => exists b, app.keeps filters p = Ret b) papers)
    (Hsortable : Forall (fun p => sortable (app.sort_by filters) p = true) papers) :
  exists out,
    app.apply_filters papers filters = Ret out
    /\ Permutation (filter (kept_by filters) papers) out
    /\ StronglySorted (in_order (app.sort_by filters) false) out
    /\ (forall p, In p out <-> In p papers /\ app.keeps filters p = Ret true).
Proof.
  assert (Hkept : Forall (fun p => sortable (app.sort_by filters) p = true)
                    (filter (kept_by filters) papers)).
  { rewrite Forall_forall in Hsortable |- *. intros p Hp.
    apply filter_In in Hp. now apply Hsortable. }
  destruct (sort_by_key_spec (app.sort_by filters) false _ Hkept)
    as [out [Hsort [Hperm [Hsorted _]]]].
  exists out. split.
  { unfold app.apply_filters. rewrite (keep_all_filter filters papers Hreturn).
    cbn [rbind]. unfold sort_papers, sorted.
    fold (keyed (get_sort_key (app.sort_by filters) false)
            (filter (kept_by filters) papers)).
    rewrite Hsort. cbn [rbind]. now rewrite unkeyed. }
  split; [exact Hperm|]. split; [exact Hsorted|].
  intros p. split.
  - intros Hin. apply (Permutation_in _ (Permutation_sym Hperm)) in Hin.
    apply filter_In in Hin. destruct Hin as [Hin Hk]. split; [exact Hin|].
    unfold kept_by in Hk. destruct (app.keeps filters p) as [[]|]; congruence.
  - intros [Hin Hk]. apply (Permutation_in _ Hperm). apply filter_In.
    split; [exact Hin|]. unfold kept_by. now rewrite Hk.
Qed.

End ApplyFilters.

(** ** Letter case and the venue table *)

Section LetterCase.

Lemma lower_of_upper_char (c : ascii) :
  lower_char_latin1 (upper_char c) = lower_char_latin1 c.
Proof. destruct c as [[] [] [] [] [] [] [] []]; vm_compute; reflexivity. Qed.

Lemma lower_of_lower_char (c : ascii) :
  lower_char_latin1 (lower_char_latin1 c) = lower_char_latin1 c.
Proof. destruct c as [[] [] [] [] [] [] [] []]; vm_compute; reflexivity. Qed.

Lemma str_lower_upper (s : string) : str_lower (upper s) = str_lower s.
Proof.
  unfold str_lower, upper. induction s as [|c s IH]; [reflexivity|].
  cbn [smap]. now rewrite lower_of_upper_char, IH.
Qed.

Lemma str_lower_idem (s : string) : str_lower (str_lower s) = str_lower s.
Proof.
  unfold str_lower. induction s as [|c s IH]; [reflexivity|].
  cbn [smap]. now rewrite lower_of_lower_char, IH.
Qed.

Lemma smap_empty (f : ascii -> ascii) (s : string) :
  String.eqb (smap f s) "" = String.eqb s "".
Proof. now destruct s. Qed.

Lemma match_keywords_by_lower (f : string -> string) (t : string)
    (keywords : list string) (logic : string) :
  (forall s, str_lower (f s) = str_lower s) ->
  (forall s, String.eqb (f s) "" = String.eqb s "") ->
  match_keywords (PStr (f t)) (map f keywords) logic
  = match_keywords (PStr t) keywords logic.
Proof.
  intros Hlow Hempty. unfold match_keywords. cbn [truthy as_str rbind].
  rewrite Hempty, Hlow.
  destruct keywords as [|kw kws]; [reflexivity|]. cbn [map orb].
  destruct (negb (negb (String.eqb t ""))); [reflexivity|].
  destruct (String.eqb (upper logic) "AND"); f_equal.
  - cbn [forallb]. rewrite Hlow. f_equal.
    induction kws as [|k kws IH]; [reflexivity|].
    cbn [map forallb]. now rewrite Hlow, IH.
  - cbn [existsb]. rewrite Hlow. f_equal.
    induction kws as [|k kws IH]; [reflexivity|].
    cbn [map existsb]. now rewrite Hlow, IH.
Qed.

(** X23. Keyword matching ignores letter case: writing the text and the
    keywords in capital letters (A to Z), or in small letters, does not
    change what [match_keywords] returns. *)
Theorem keyword_match_ignores_case (t : string) (keywords : list string)
    (logic : string) :
  match_keywords (PStr (upper t)) (map upper keywords) logic
  = match_keywords (PStr t) keywords logic
  /\ match_keywords (PStr (str_lower t)) (map str_lower keywords) logic
     = match_keywords (PStr t) keywords logic
  /\ match_keywords (PStr (upper t)) keywords logic
     = match_keywords (PStr t) (map upper keywords) logic.
Proof.
  assert (Hup := match_keywords_by_lower upper t keywords logic
                   str_lower_upper (smap_empty upper_char)).
  assert (Hlow := match_keywords_by_lower str_lower t keywords logic
                    str_lower_idem (smap_empty lower_char_latin1)).
  split; [exact Hup|]. split; [exact Hlow|].
  rewrite <- (match_keywords_by_lower str_lower (upper t) keywords logic
                str_lower_idem (smap_empty lower_char_latin1)).
  rewrite <- (match_keywords_by_lower str_lower t (map upper keywords) logic
                str_lower_idem (smap_empty lower_char_latin1)).
  rewrite str_lower_upper, map_map. f_equal.
  apply map_ext. intros k. now rewrite str_lower_upper.
Qed.

(** X24. Every venue of the selection list resolves to its own entry of the
    table, whatever the year: its candidates are the patterns of that entry
    with the year filled in, and its years are the years of that entry; no
    entry is hidden behind an alias of an earlier one. *)
Theorem listed_venues_resolve_to_themselves (venue : string) (year : Z)
    (Hlisted : In venue config.get_available_venues) :
  exists cfg,
    In (venue, cfg) config.VENUE_MAPPINGS
    /\ config.get_venue_id_candidates venue year
       = map (fun p => config.format_year p (str_of_int year)) (config.patterns cfg)
    /\ config.get_venue_years venue = config.years_available cfg.
Proof.
  unfold config.get_available_venues, config.VENUE_MAPPINGS in Hlisted.
  cbn [map fst In] in Hlisted.
  destruct Hlisted as [<-|[<-|[<-|[<-|[]]]]];
    eexists; (split; [|split; reflexivity]);
    unfold config.VENUE_MAPPINGS; cbn [In]; tauto.
Qed.

End LetterCase.

(** ** The further properties at sample data *)

(** X1 at a network where every request fails: three attempts, then the
    error of the third. *)
Lemma retry_schedule_witness :
  retry_with_backoff (R := samples.offline)
    (call (@get_all_notes _ samples.offline ApiClient "ICLR.cc/2024/Conference/-/Submission"))
    samples.with_client
  = (Raise (gave_up samples.connection_error),
     {| client_cache := Some ApiClient;
        net := [ "ICLR.cc/2024/Conference/-/Submission";
                 "ICLR.cc/2024/Conference/-/Submission";
                 "ICLR.cc/2024/Conference/-/Submission" ] |}).
Proof.
  eapply (proj2 (proj2 (proj2
            (retry_schedule (R := samples.offline)
               (call (@get_all_notes _ samples.offline ApiClient "ICLR.cc/2024/Conference/-/Submission"))
               samples.with_client))));
    reflexivity.
Defined.

(** X2 at the same network. *)
Lemma retry_raises_client_error_witness :
  exists e1 w1 e2 w2 e3,
    call
      (@get_all_notes _ samples.offline ApiClient "ICLR.cc/2024/Conference/-/Submission")
      samples.with_client = (Raise e1, w1)
    /\ call (@get_all_notes _ samples.offline ApiClient "ICLR.cc/2024/Conference/-/Submission")
         (after_sleep (R := samples.offline) 2 w1) = (Raise e2, w2)
    /\ call (@get_all_notes _ samples.offline ApiClient "ICLR.cc/2024/Conference/-/Submission")
         (after_sleep (R := samples.offline) 4 w2)
       = (Raise e3,
          {| client_cache := Some ApiClient;
             net := [ "ICLR.cc/2024/Conference/-/Submission";
                      "ICLR.cc/2024/Conference/-/Submission";
                      "ICLR.cc/2024/Conference/-/Submission" ] |})
    /\ gave_up samples.connection_error = gave_up e3.
Proof.
  exact (retry_raises_client_error (R := samples.offline)
           (call (@get_all_notes _ samples.offline ApiClient "ICLR.cc/2024/Conference/-/Submission"))
           samples.with_client _ _ eq_refl).
Defined.

(** X3 at a fresh process of a venue whose client can be built. *)
Lemma create_client_caches_witness :
  create_client (R := samples.blind_venue) samples.fresh
  = (Ret ApiClient, samples.blind_world [])
  /\ client_cache (samples.blind_world []) = Some ApiClient
  /\ create_client (R := samples.blind_venue) (samples.blind_world [])
     = (Ret ApiClient, samples.blind_world []).
Proof.
  split; [reflexivity|].
  exact (proj1 (create_client_caches (R := samples.blind_venue)
                  samples.fresh (samples.blind_world []))
           ApiClient eq_refl).
Defined.

(** X4 at a network where every request fails. *)
Lemma failed_first_request_ends_fetch_witness :
  fetch_submissions_with_reviews (R := samples.offline)
    (py := samples.sample_builtins) "ICLR.cc/2024/Conference" samples.with_client
  = (Ret ([], "Error: " ++ exn_str (gave_up samples.connection_error)),
     {| client_cache := Some ApiClient;
        net := [ "ICLR.cc/2024/Conference/-/Submission";
                 "ICLR.cc/2024/Conference/-/Submission";
                 "ICLR.cc/2024/Conference/-/Submission" ] |}).
Proof.
  exact (failed_first_request_ends_fetch (R := samples.offline)
           (py := samples.sample_builtins) "ICLR.cc/2024/Conference"
           samples.with_client samples.with_client _ ApiClient _
           eq_refl eq_refl eq_refl).
Defined.

(** X5 at the venue whose records are under [Blind_Submission]. *)
Lemma fetch_status_line_witness :
  exists papers status w',
    fetch_submissions_with_reviews (R := samples.blind_venue)
      (py := samples.sample_builtins) "Old.cc/2019/Conference" samples.fresh
    = (Ret (papers, status), w')
    /\ ((papers = [] /\ exists e, status = "Error: " ++ exn_str e)
        \/ (exists k,
              status = fetched_status (len papers) k
              /\ count_reviewed papers = Ret k
              /\ 0 <= k <= len papers)).
Proof.
  exact (fetch_status_line (R := samples.blind_venue)
           (py := samples.sample_builtins) "Old.cc/2019/Conference"
           samples.fresh (samples.blind_world []) ApiClient eq_refl eq_refl).
Defined.


(** X7 at the AAAI conference of 2025. *)
Lemma web_venues_bypass_openreview_witness :
  exists papers w',
    fetch_submissions_with_reviews (R := samples.aaai_site)
      (py := samples.sample_builtins) "AAAI.org/2025/Conference" samples.fresh
    = (Ret (papers, ""), w')
    /\ client_cache w' = client_cache samples.fresh
    /\ (search_year "AAAI.org/2025/Conference" = None ->
        papers = [] /\ w' = samples.fresh).
Proof.
  exact (web_venues_bypass_openreview (R := samples.aaai_site)
           (py := samples.sample_builtins) "AAAI.org/2025/Conference"
           samples.fresh eq_refl).
Defined.





(** X12 at a venue whose [Submission] invitation cannot be read. *)
Lemma cached_fetch_survives_failed_request_witness :
  exists subs,
    rmap_list (note_to_submission "Old.cc/2019/Conference") [samples.sample_note]
    = Ret subs
    /\ len subs = len [samples.sample_note]
    /\ fetch_submissions_cached (R := samples.blind_venue)
         (S := samples.blind_submissions) "Old.cc/2019/Conference" samples.fresh
       = (Ret (subs, "Fetched 1 submissions"),
          samples.blind_world
            [ "Old.cc/2019/Conference/-/Submission";
              "Old.cc/2019/Conference/-/Submission";
              "Old.cc/2019/Conference/-/Submission";
              "Old.cc/2019/Conference/-/Blind_Submission" ]).
Proof.
  exact (cached_fetch_survives_failed_request (R := samples.blind_venue)
           (S := samples.blind_submissions) "Old.cc/2019/Conference"
           samples.fresh (samples.blind_world [])
           (samples.blind_world
              [ "Old.cc/2019/Conference/-/Submission";
                "Old.cc/2019/Conference/-/Submission";
                "Old.cc/2019/Conference/-/Submission" ])
           _ ApiClient (gave_up samples.connection_error) samples.sample_note []
           eq_refl eq_refl eq_refl ltac:(repeat constructor)).
Defined.

(** X14 at the older name of NeurIPS. *)
Lemma candidate_forms_witness :
  In "NIPS.cc/2023/Conference" (config.get_venue_id_candidates "nips" 2023)
  /\ ("NIPS.cc/2023/Conference" = "nips"
      \/ exists org,
           In org VENUE_ORGS
           /\ "NIPS.cc/2023/Conference" = org ++ str_of_int 2023 ++ "/Conference").
Proof.
  assert (Hin : In "NIPS.cc/2023/Conference"
                  (config.get_venue_id_candidates "nips" 2023))
    by (right; left; reflexivity).
  split; [exact Hin|].
  exact (candidate_forms "nips" 2023 "NIPS.cc/2023/Conference" Hin).
Defined.

(** X15 at the year 2025. *)
Lemma aaai_candidate_reaches_scraper_witness :
  config.get_venue_id_candidates "AAAI" 2025 = [aaai_venue_id 2025]
  /\ exists papers w',
       fetch_aaai_from_github (R := samples.aaai_site) (str_of_int 2025)
         samples.fresh = (Ret papers, w')
       /\ fetch_submissions_with_reviews (R := samples.aaai_site)
            (py := samples.sample_builtins) (aaai_venue_id 2025) samples.fresh
          = (Ret (papers, ""), w')
       /\ Forall (fun p => get p "venue_id" = PStr (aaai_venue_id 2025)
                           /\ get p "year" = PInt 2025) papers.
Proof.
  apply (aaai_candidate_reaches_scraper (R := samples.aaai_site)
           (py := samples.sample_builtins) 2025 samples.fresh).
  lia.
Defined.

(** X16 at a paper with an average score after a paper without one. *)
Lemma sort_papers_order_witness :
  exists out,
    sort_papers [samples.sample_paper; samples.aaai_paper] "avg_score" false
    = Ret out
    /\ Permutation [samples.sample_paper; samples.aaai_paper] out
    /\ StronglySorted (in_order "avg_score" false) out
    /\ (forall q, filter (same_rank "avg_score" q) out
                  = filter (same_rank "avg_score" q)
                      [samples.sample_paper; samples.aaai_paper])
    /\ (false = false ->
        forall p, In p [samples.sample_paper; samples.aaai_paper] ->
        sort_value "avg_score" p = None ->
        exists first rest,
          out = first :: rest /\ sort_value "avg_score" first = None).
Proof.
  exact (sort_papers_order "avg_score"
           [samples.sample_paper; samples.aaai_paper] false
           ltac:(repeat constructor)).
Defined.

(** X17 at a title that has the one keyword. *)
Lemma and_is_stricter_than_or_witness :
  upper "and" = "AND"
  /\ filter_paper_by_keywords samples.sample_paper ["paper"] "title" "and"
     = Ret true
  /\ filter_paper_by_keywords samples.sample_paper ["paper"] "title" "OR"
     = Ret true.
Proof.
  split; [reflexivity|]. split; [reflexivity|].
  exact (and_is_stricter_than_or samples.sample_paper ["paper"] "title"
           "and" "OR" eq_refl eq_refl).
Defined.

(** X18 at a paper whose abstract is empty. *)
Lemma missing_abstract_passes_witness :
  truthy (get_default samples.sample_paper "abstract" (PStr "")) = false
  /\ filter_paper_by_keywords samples.sample_paper ["transformer"] "abstract" "AND"
     = Ret true.
Proof.
  split; [reflexivity|].
  exact (proj1 (missing_abstract_passes samples.sample_paper ["transformer"]
                  "AND" eq_refl)).
Defined.

(** X19 at the paper of the sample entry, under a minimum average of 5. *)
Lemma web_papers_fail_score_filters_witness :
  aaai_note "2025" samples.aaai_entry = Ret samples.aaai_paper
  /\ filter_paper_by_scores samples.aaai_paper (Some (inject_Z 5)) None None None
     = Ret false.
Proof.
  split; [reflexivity|].
  exact (proj1 (web_papers_fail_score_filters "2025" samples.aaai_entry
                  samples.aaai_paper (Some (inject_Z 5)) None None None eq_refl)).
Defined.


(** X22 at the two sample papers, under a keyword filter on the title. *)
Lemma apply_filters_keeps_and_sorts_witness :
  exists out,
    app.apply_filters [samples.sample_paper; samples.aaai_paper]
      samples.title_filters = Ret out
    /\ Permutation
         (filter (kept_by samples.title_filters)
            [samples.sample_paper; samples.aaai_paper]) out
    /\ StronglySorted (in_order (app.sort_by samples.title_filters) false) out
    /\ (forall p,
          In p out
          <-> In p [samples.sample_paper; samples.aaai_paper]
              /\ app.keeps samples.title_filters p = Ret true).
Proof.
  exact (apply_filters_keeps_and_sorts
           [samples.sample_paper; samples.aaai_paper] samples.title_filters
           ltac:(repeat (constructor; try (eexists; reflexivity)))
           ltac:(repeat constructor)).
Defined.

(** X24 at ICML. *)
Lemma listed_venues_resolve_to_themselves_witness :
  In "ICML" config.get_available_venues
  /\ exists cfg,
       In ("ICML", cfg) config.VENUE_MAPPINGS
       /\ config.get_venue_id_candidates "ICML" 2024
          = map (fun p => config.format_year p (str_of_int 2024))
              (config.patterns cfg)
       /\ config.get_venue_years "ICML" = config.years_available cfg.
Proof.
  assert (Hin : In "ICML" config.get_available_venues)
    by (right; right; left; reflexivity).
  split; [exact Hin|].
  exact (listed_venues_resolve_to_themselves "ICML" 2024 Hin).
Defined.
